(** * Request shaping, response normalisation and cost estimation of the
      image-generation server actions

    The development embeds the two request/response server actions of the
    module, [generateImage] and [generateFluxProUltraImage], with the cost
    helper [calculateImageCost], and proves what they guarantee about the
    payload sent to the provider, the normalised result, the cost and the
    surfaced errors. The realtime variant [generateImageRealtime] and the
    display component [ImageDisplay] follow, with what they guarantee.

    - JavaScript numbers are IEEE 754 binary64 values: [spec_float] of the
      standard library with precision 53 and maximal exponent 1024, with the
      library's correctly rounded operations.
    - A JavaScript object used as a bag of properties is a [gmap] from
      property names to values: a property can be absent ([None]), or present
      with the value [undefined] ([Some VUndefined]).
    - A promise is its completion: fulfilled with a value, or rejected with
      the thrown value.
    - The remote provider ([fal.subscribe]) is a parameter of the actions, and
      so is the engine's conversion of an arbitrary string to a number.
    - Logging is left out, except that the arguments of a log call are
      evaluated, and can throw. Configuring the client's credentials writes
      to the client's own state and has no part in what is proved. *)

From Stdlib Require Import ZArith List String Ascii Bool Lia DecimalString.
From Stdlib Require Import SpecFloat.
From stdpp Require Import gmap strings.

Import ListNotations.

(** ** JavaScript numbers *)

Definition prec : Z := 53.
Definition emax : Z := 1024.

Definition number : Type := spec_float.

Declare Scope js_scope.
Delimit Scope js_scope with js.
Bind Scope js_scope with number.

Definition NaN : number := S754_nan.

(** An integer literal of the source ([1], [4], [2048], [1000000]). *)
Definition int (z : Z) : number := binary_normalize prec emax z 0 false.

(** The digits [n] read with [f] digits after the decimal point, as the
    nearest binary64 value (ties to even): the value of a decimal literal of
    the source ([0.05] is [decimal false 5 2]) and of a decimal string given
    to [Number]. Beyond 20 significant digits the language leaves the last
    place to the engine; V8 rounds the exact value, as is done here. *)
Definition decimal (neg : bool) (n : N) (f : nat) : number :=
  match n with
  | N0 => S754_zero neg
  | Npos p =>
      SFdiv prec emax (S754_finite neg p 0)
            (S754_finite false (Z.to_pos (10 ^ Z.of_nat f)) 0)
  end.

Notation "x * y" := (SFmul prec emax x y) : js_scope.
Notation "x / y" := (SFdiv prec emax x y) : js_scope.
Notation "x + y" := (SFadd prec emax x y) : js_scope.
Notation "x < y" := (SFltb x y) : js_scope.
Notation "x <= y" := (SFleb x y) : js_scope.

(** [ToBoolean] on numbers: [+0], [-0] and [NaN] are falsy. *)
Definition ToBoolean (x : number) : bool :=
  match x with
  | S754_zero _ | S754_nan => false
  | _ => true
  end.

Definition is_NaN (x : number) : bool :=
  match x with S754_nan => true | _ => false end.

Definition is_pos_zero (x : number) : bool :=
  match x with S754_zero false => true | _ => false end.

Definition is_neg_zero (x : number) : bool :=
  match x with S754_zero true => true | _ => false end.

(** [Math.max] and [Math.min], by the steps of the language definition: the
    running extreme starts at the opposite infinity, a [NaN] argument makes
    the result [NaN], and [+0] counts as larger than [-0]. *)
Module Math.

Fixpoint max_from (highest : number) (coerced : list number) : number :=
  match coerced with
  | [] => highest
  | x :: rest =>
      if is_NaN x then NaN
      else
        let highest :=
          if is_pos_zero x && is_neg_zero highest then x else highest in
        let highest := if (highest < x)%js then x else highest in
        max_from highest rest
  end.

Definition max (args : list number) : number :=
  max_from (S754_infinity true) args.

Fixpoint min_from (lowest : number) (coerced : list number) : number :=
  match coerced with
  | [] => lowest
  | x :: rest =>
      if is_NaN x then NaN
      else
        let lowest :=
          if is_neg_zero x && is_pos_zero lowest then x else lowest in
        let lowest := if (x < lowest)%js then x else lowest in
        min_from lowest rest
  end.

Definition min (args : list number) : number :=
  min_from (S754_infinity false) args.

End Math.

(** The string [Number.prototype.toFixed] returns, kept by its parts. *)
Inductive NumericString : Type :=
| Str_NaN                                     (* "NaN" *)
| Str_Infinity (neg : bool)                   (* "Infinity", "-Infinity" *)
| Str_Fixed (neg : bool) (n : N) (f : nat)    (* sign, the digits of n, f of them after the point *)
| Str_ToString (x : number).                  (* the shortest string that reads back as x *)

(** The integer [n] for which [n / 10^f] is closest to [m * 2^e]; of two
    such integers the larger. *)
Definition nearest_scaled (m : positive) (e : Z) (f : nat) : N :=
  let a := (Zpos m * 10 ^ Z.of_nat f)%Z in
  match e with
  | Zneg k => Z.to_N ((2 * a + 2 ^ Zpos k) / 2 ^ (Zpos k + 1))%Z
  | _ => Z.to_N (a * 2 ^ e)%Z
  end.

(** [m * 2^e >= 10^21]. *)
Definition at_least_1e21 (m : positive) (e : Z) : bool :=
  match e with
  | Zneg k => (10 ^ 21 * 2 ^ Zpos k <=? Zpos m)%Z
  | _ => (10 ^ 21 <=? Zpos m * 2 ^ e)%Z
  end.

(** [x.toFixed(f)]: a value that is not finite prints as its name; a
    magnitude of at least 10^21 prints as [String(x)]; otherwise the sign
    is split off (it is kept even when all digits are zero, and [-0] has
    none) and the magnitude is rounded to [f] decimals, half up. *)
Definition toFixed (x : number) (f : nat) : NumericString :=
  match x with
  | S754_nan => Str_NaN
  | S754_infinity s => Str_Infinity s
  | S754_zero _ => Str_Fixed false 0 f
  | S754_finite s m e =>
      if at_least_1e21 m e then Str_ToString x
      else Str_Fixed s (nearest_scaled m e f) f
  end.

(** [Number(s)] on such a string: the decimal is read to the nearest
    binary64 value, ["NaN"] is no numeric literal and gives [NaN], and
    [String(x)] reads back as [x]. *)
Definition Number (s : NumericString) : number :=
  match s with
  | Str_NaN => NaN
  | Str_Infinity neg => S754_infinity neg
  | Str_Fixed neg n f => decimal neg n f
  | Str_ToString x => x
  end.

(** [Number(s)] on the empty string and on a string of decimal digits only
    (["7"], ["12"]); any other string is outside this fragment and is mapped
    to [NaN] here. *)
Fixpoint digits_value (acc : N) (s : string) : option N :=
  match s with
  | EmptyString => Some acc
  | String c rest =>
      let d := N_of_ascii c in
      if ((48 <=? d) && (d <=? 57))%N
      then digits_value (acc * 10 + (d - 48))%N rest
      else None
  end.

Definition Number_of_digits (s : string) : number :=
  match s with
  | EmptyString => S754_zero false
  | _ => match digits_value 0 s with
         | Some n => int (Z.of_N n)
         | None => NaN
         end
  end.

(** ** JavaScript values, objects and completions *)

Inductive JSValue : Type :=
| VUndefined
| VBoolean (b : bool)
| VNumber (n : number)
| VString (s : string).

(** An object literal: the properties are defined from left to right, a
    later one replacing an earlier one of the same name. *)
Definition object_literal (props : list (string * JSValue)) : gmap string JSValue :=
  fold_left (fun o kv => <[kv.1 := kv.2]> o) props ∅.

(** [...(c && { key: v })] inside an object literal: the properties of the
    object when [c] is truthy, none when the operand is a falsy primitive. *)
Definition spread_when (c : bool) (props : list (string * JSValue)) :
    list (string * JSValue) :=
  if c then props else [].

(** [o ?? d]. *)
Definition nullish {A : Type} (o : option A) (d : A) : A :=
  match o with
  | Some v => v
  | None => d
  end.

Infix "??" := nullish (at level 45, left associativity).

(** [x || d] on an optional number: the default replaces [undefined] and
    every falsy number. *)
Definition or_number (x : option number) (d : number) : number :=
  match x with
  | Some v => if ToBoolean v then v else d
  | None => d
  end.

(** What a [catch] clause can receive: an [Error] instance (with the
    [status] the provider's client attaches to its errors, when it does), or
    any other thrown value. *)
Record ErrorObject : Type := Error_ {
  message : string;
  error_status : option Z
}.

Definition Error (msg : string) : ErrorObject :=
  {| message := msg; error_status := None |}.

Inductive Thrown : Type :=
| ThrownError (e : ErrorObject)
| ThrownValue (v : JSValue).

(** The completion of an expression or of a promise. *)
Inductive Completion (A : Type) : Type :=
| Return (a : A)
| Throw (t : Thrown).

Arguments Return {A} a.
Arguments Throw {A} t.

#[global] Instance Completion_ret : MRet Completion := fun A a => Return a.

#[global] Instance Completion_bind : MBind Completion := fun A B f c =>
  match c with
  | Return a => f a
  | Throw t => Throw t
  end.

(** [try { body } catch (error) { handler }]. *)
Definition try_catch {A : Type} (body : Completion A)
    (handler : Thrown -> Completion A) : Completion A :=
  match body with
  | Return a => Return a
  | Throw t => handler t
  end.

(** The message of the [TypeError] raised when property [prop] is read from
    [undefined] (the wording of V8, the engine that runs the server
    actions). *)
Definition TypeError_read (prop : string) : ErrorObject :=
  Error ("Cannot read properties of undefined (reading '" +:+ prop +:+ "')").

(** [String(z)] for an integer status code. *)
Definition String_of_Z (z : Z) : string :=
  NilZero.string_of_int (Z.to_int z).

(** Substring test, for error messages. *)
Fixpoint contains (needle hay : string) : bool :=
  String.prefix needle hay ||
  match hay with
  | EmptyString => false
  | String _ rest => contains needle rest
  end.

(** ** The provider's client *)

(** An image of a response; the provider may leave any field out. *)
Record Image : Type := {
  url : option string;
  width : option number;
  height : option number
}.

Record Data : Type := { images : option (list Image) }.

Record SubscribeResult : Type := { data : option Data }.

Record SubscribeOptions : Type := {
  input : gmap string JSValue;
  logs : bool
}.

(** [result.data.images], read without guards: a [TypeError] when [data]
    is [undefined]. *)
Definition read_data_images (result : SubscribeResult) :
    Completion (option (list Image)) :=
  match data result with
  | Some d => Return (images d)
  | None => Throw (ThrownError (TypeError_read "images"))
  end.

(** [result.data.images.map(f)] for a callback that cannot throw: a
    [TypeError] when [data] or [images] is [undefined]. *)
Definition read_data_images_map {B : Type} (f : Image -> B)
    (result : SubscribeResult) : Completion (list B) :=
  imgs ← read_data_images result;
  match imgs with
  | Some l => Return (map f l)
  | None => Throw (ThrownError (TypeError_read "map"))
  end.

(** [result?.data?.images]. *)
Definition optional_images (result : SubscribeResult) : option (list Image) :=
  d ← data result; images d.

(** [result?.data?.images?.[0]?.url]. *)
Definition optional_first_url (result : SubscribeResult) : option string :=
  imgs ← optional_images result; img ← head imgs; url img.

(** ** The server actions *)

Inductive ModelAlias : Type := flux_pro | flux_lora | flux_dev | flux_schnell.

Definition AVAILABLE_MODELS (model : ModelAlias) : string :=
  match model with
  | flux_pro => "fal-ai/flux-pro/v1.1-ultra"
  | flux_lora => "fal-ai/flux-lora"
  | flux_dev => "fal-ai/flux/dev"
  | flux_schnell => "fal-ai/flux/schnell"
  end.

Inductive AspectRatio : Type :=
| ratio_21_9 | ratio_16_9 | ratio_4_3 | ratio_1_1 | ratio_3_4 | ratio_9_16 | ratio_9_21.

Definition AspectRatio_string (r : AspectRatio) : string :=
  match r with
  | ratio_21_9 => "21:9" | ratio_16_9 => "16:9" | ratio_4_3 => "4:3"
  | ratio_1_1 => "1:1" | ratio_3_4 => "3:4" | ratio_9_16 => "9:16"
  | ratio_9_21 => "9:21"
  end.

Inductive SafetyTolerance : Type :=
| tolerance_1 | tolerance_2 | tolerance_3 | tolerance_4 | tolerance_5 | tolerance_6.

Definition SafetyTolerance_string (t : SafetyTolerance) : string :=
  match t with
  | tolerance_1 => "1" | tolerance_2 => "2" | tolerance_3 => "3"
  | tolerance_4 => "4" | tolerance_5 => "5" | tolerance_6 => "6"
  end.

Inductive OutputFormat : Type := jpeg | png.

Definition OutputFormat_string (f : OutputFormat) : string :=
  match f with jpeg => "jpeg" | png => "png" end.

(** The rate table, read as the source reads it: a property lookup, which
    yields [undefined] for a name the table lacks. *)
Definition COST_PER_MEGAPIXEL (model : ModelAlias) : option number :=
  match model with
  | flux_pro => Some (decimal false 5 2)        (* 0.05 *)
  | flux_dev => Some (decimal false 25 3)       (* 0.025 *)
  | flux_schnell => Some (decimal false 3 3)    (* 0.003 *)
  | flux_lora => Some (decimal false 25 3)      (* 0.025 *)
  end.

Definition calculateImageCost (width height : number) (model : ModelAlias) : number :=
  let megapixels := ((width * height) / int 1000000)%js in
  let costPerMp := or_number (COST_PER_MEGAPIXEL model) (int 0) in
  Number (toFixed (megapixels * costPerMp)%js 3).

(** The options bag of [generateImage]. *)
Module Options.
Record t : Type := {
  seed : option number;
  enable_safety_checker : option bool;
  safety_tolerance : option SafetyTolerance;
  output_format : option OutputFormat;
  raw : option bool
}.
End Options.

(** The argument of [generateFluxProUltraImage]. *)
Module FluxProUltraInput.
Record t : Type := {
  apiKey : string;
  prompt : string;
  seed : option number;
  sync_mode : option bool;
  num_images : option string;
  enable_safety_checker : option bool;
  safety_tolerance : option SafetyTolerance;
  output_format : option OutputFormat;
  aspect_ratio : option AspectRatio;
  raw : option bool;
  image_url : option string;
  image_prompt_strength : option number
}.
End FluxProUltraInput.

(** What [generateImage] resolves to. *)
Record GenerationResult : Type := {
  status : string;
  imageUrls : list (option string);
  cost : number
}.

(** The message built in both [catch] clauses. *)
Definition errorMessage (error : Thrown) : string :=
  match error with
  | ThrownError e =>
      message e +:+
      match error_status e with
      | Some code =>
          if (code =? 0)%Z then "" else " (Status: " +:+ String_of_Z code +:+ ")"
      | None => ""
      end
  | ThrownValue _ => "Unknown error"
  end.

Definition rethrow {A : Type} (error : Thrown) : Completion A :=
  Throw (ThrownError (Error ("Failed to generate image: " +:+ errorMessage error))).

(** The [input] object [generateImage] sends. *)
Definition generateImage_input (prompt : string) (aspectRatio : AspectRatio)
    (numImages : number) (options : option Options.t) : gmap string JSValue :=
  object_literal (
    [ ("prompt", VString prompt);
      ("aspect_ratio", VString (AspectRatio_string aspectRatio));
      ("num_images", VNumber (Math.min [Math.max [int 1; numImages]; int 4]));
      ("enable_safety_checker",
        VBoolean ((options ≫= Options.enable_safety_checker) ?? false));
      ("safety_tolerance",
        VString (SafetyTolerance_string
                   ((options ≫= Options.safety_tolerance) ?? tolerance_6)));
      ("output_format",
        VString (OutputFormat_string
                   ((options ≫= Options.output_format) ?? jpeg))) ]
    ++ match options ≫= Options.seed with
       | Some seed => [ ("seed", VNumber seed) ]
       | None => []
       end
    ++ match options ≫= Options.raw with
       | Some raw => [ ("raw", VBoolean raw) ]
       | None => []
       end).

(** The [input] object [generateFluxProUltraImage] sends; [Number] on the
    caller's [num_images] string is the engine's. *)
Definition generateFluxProUltraImage_input (StringToNumber : string -> number)
    (a : FluxProUltraInput.t) : gmap string JSValue :=
  let seed := FluxProUltraInput.seed a in
  let sync_mode := FluxProUltraInput.sync_mode a ?? false in
  let num_images := FluxProUltraInput.num_images a ?? "1" in
  let enable_safety_checker := FluxProUltraInput.enable_safety_checker a ?? false in
  let safety_tolerance := FluxProUltraInput.safety_tolerance a ?? tolerance_6 in
  let output_format := FluxProUltraInput.output_format a ?? jpeg in
  let aspect_ratio := FluxProUltraInput.aspect_ratio a ?? ratio_16_9 in
  let raw := FluxProUltraInput.raw a ?? false in
  let image_url := FluxProUltraInput.image_url a in
  let image_prompt_strength := FluxProUltraInput.image_prompt_strength a in
  object_literal (
    [ ("prompt", VString (FluxProUltraInput.prompt a));
      ("seed", match seed with Some n => VNumber n | None => VUndefined end);
      ("sync_mode", VBoolean sync_mode);
      ("num_images", VNumber (StringToNumber num_images));
      ("enable_safety_checker", VBoolean enable_safety_checker);
      ("safety_tolerance", VString (SafetyTolerance_string safety_tolerance));
      ("output_format", VString (OutputFormat_string output_format));
      ("aspect_ratio", VString (AspectRatio_string aspect_ratio));
      ("raw", VBoolean raw) ]
    ++ match image_url with
       | Some u => spread_when (negb (String.eqb u "")) [ ("image_url", VString u) ]
       | None => []
       end
    ++ match image_prompt_strength with
       | Some x => spread_when (ToBoolean x) [ ("image_prompt_strength", VNumber x) ]
       | None => []
       end).

Section Actions.

(** [fal.subscribe], the remote call: the promise it returns is fulfilled
    with the provider's response or rejected with what the client throws. *)
Variable fal_subscribe : string -> SubscribeOptions -> Completion SubscribeResult.

(** [Number] on arbitrary strings, as the engine provides it. *)
Variable StringToNumber : string -> number.

(** The [try] block of [generateImage]. *)
Definition generateImage_try (prompt : string) (aspectRatio : AspectRatio)
    (model : ModelAlias) (numImages : number)
    (options : option Options.t) : Completion GenerationResult :=
  result ← fal_subscribe (AVAILABLE_MODELS model)
             {| input := generateImage_input prompt aspectRatio numImages options;
                logs := true |};
  (* the argument of the output log: result.data.images.map(...) *)
  _ ← read_data_images_map (fun img => (url img, width img, height img)) result;
  match optional_images result with
  | None | Some [] => Throw (ThrownError (Error "No images in response"))
  | Some imgs =>
      let totalCost :=
        fold_left
          (fun acc image =>
             (acc + calculateImageCost (or_number (width image) (int 2048))
                                       (or_number (height image) (int 2048))
                                       model)%js)
          imgs (int 0) in
      Return {| status := "COMPLETED";
                imageUrls := map url imgs;
                cost := totalCost |}
  end.

(** [numImages] defaults to 1 when the caller leaves it out. *)
Definition generateImage (apiKey prompt : string) (aspectRatio : AspectRatio)
    (model : ModelAlias) (numImages : option number)
    (options : option Options.t) : Completion GenerationResult :=
  try_catch
    (generateImage_try prompt aspectRatio model (numImages ?? int 1) options)
    rethrow.

(** The [try] block of [generateFluxProUltraImage]. *)
Definition generateFluxProUltraImage_try (a : FluxProUltraInput.t) :
    Completion string :=
  result ← fal_subscribe "fal-ai/flux-pro/v1.1-ultra"
             {| input := generateFluxProUltraImage_input StringToNumber a;
                logs := true |};
  (* the argument of the response log: result.data.images *)
  _ ← read_data_images result;
  match optional_first_url result with
  | Some u =>
      if String.eqb u "" then Throw (ThrownError (Error "No image URL in response"))
      else Return u
  | None => Throw (ThrownError (Error "No image URL in response"))
  end.

Definition generateFluxProUltraImage (a : FluxProUltraInput.t) : Completion string :=
  try_catch (generateFluxProUltraImage_try a) rethrow.

End Actions.

(** ** Vocabulary of the statements *)

(** The cost [generateImage] adds for one image of the response. *)
Definition image_cost (model : ModelAlias) (image : Image) : number :=
  calculateImageCost (or_number (width image) (int 2048))
                     (or_number (height image) (int 2048)) model.

(** Rounding to three decimals, as [calculateImageCost] does it. *)
Definition round3 (x : number) : number := Number (toFixed x 3).

(** A value that a further rounding to three decimals leaves alone. *)
Definition rounded3 (x : number) : Prop := round3 x = x.

(** The image count [generateImage] sends for a requested count [n]. *)
Definition clamped (n : number) : number :=
  Math.min [Math.max [int 1; n]; int 4].

(** [1 <= x <= 4]. *)
Definition in_1_4 (x : number) : bool := (int 1 <= x)%js && (x <= int 4)%js.

(** The per-image cost in the words of the cost estimator: the given
    dimensions, 2048 for a dimension the image lacks. *)
Definition estimator_image_cost (model : ModelAlias) (image : Image) : number :=
  calculateImageCost (width image ?? int 2048) (height image ?? int 2048) model.

(** The dimension the cost is computed from: 2048 when the response leaves
    the dimension out, and also when it gives zero or [NaN]. *)
Definition effective_dimension (d : option number) : number :=
  match d with
  | None | Some (S754_zero _) | Some S754_nan => int 2048
  | Some v => v
  end.

(** [x >= 0]: a zero of either sign, a positive finite number or
    [+Infinity]. *)
Definition nonnegative (x : number) : bool :=
  match x with
  | S754_zero _ | S754_infinity false | S754_finite false _ _ => true
  | _ => false
  end.

(** A dimension of the response that is not below zero ([NaN] included: it
    is replaced like a missing dimension). *)
Definition not_negative (d : option number) : bool :=
  match d with
  | Some (S754_infinity true) | Some (S754_finite true _ _) => false
  | _ => true
  end.

(** A dimension as the response gives it, a zero taken for missing. *)
Definition omit_zero (d : option number) : option number :=
  match d with
  | Some (S754_zero _) => None
  | _ => d
  end.

(** An image with its zero dimensions left out: what the provider would
    send had it omitted them. *)
Definition without_zero_dimensions (img : Image) : Image :=
  {| url := url img;
     width := omit_zero (width img);
     height := omit_zero (height img) |}.

(** An image whose width and height are both 0. *)
Definition zero_pixels (img : Image) : Prop :=
  (exists s, width img = Some (S754_zero s))
  /\ (exists s, height img = Some (S754_zero s)).

(** The sum of the costs of the images, taken in the order of the response. *)
Definition sum_costs (costs : list number) : number :=
  fold_left (fun acc c => (acc + c)%js) costs (int 0).

(** The request [generateImage] passes to [fal.subscribe]. *)
Definition generateImage_request (prompt : string) (aspectRatio : AspectRatio)
    (numImages : option number) (options : option Options.t) : SubscribeOptions :=
  {| input := generateImage_input prompt aspectRatio (numImages ?? int 1) options;
     logs := true |}.

(** The request [generateFluxProUltraImage] passes to [fal.subscribe]. *)
Definition generateFluxProUltraImage_request (StringToNumber : string -> number)
    (a : FluxProUltraInput.t) : SubscribeOptions :=
  {| input := generateFluxProUltraImage_input StringToNumber a; logs := true |}.

(** A provider that answers every request with the same completion. *)
Definition provider (c : Completion SubscribeResult) :
    string -> SubscribeOptions -> Completion SubscribeResult :=
  fun _ _ => c.

Definition response (imgs : list Image) : SubscribeResult :=
  {| data := Some {| images := Some imgs |} |}.

Definition image (u : string) (w h : Z) : Image :=
  {| url := Some u; width := Some (int w); height := Some (int h) |}.

(** The two images of the worked example. *)
Definition example_images : list Image :=
  [ image "a" 1000 1000; image "b" 2000 1000 ].

(** An image of zero pixels. *)
Definition zero_image : Image := image "z" 0 0.

(** A response with a 0 x 0 image, a 0 x 1 image and a 2000 x 1000 image. *)
Definition mixed_images : list Image :=
  [ zero_image; image "w" 0 1; image "b" 2000 1000 ].

Definition no_options : option Options.t := None.

(** A call of [generateFluxProUltraImage] that sets only what is named. *)
Definition ultra_call (num_images : option string) (raw : option bool)
    (image_url : option string) (image_prompt_strength : option number) :
    FluxProUltraInput.t :=
  {| FluxProUltraInput.apiKey := "key";
     FluxProUltraInput.prompt := "a lighthouse";
     FluxProUltraInput.seed := None;
     FluxProUltraInput.sync_mode := None;
     FluxProUltraInput.num_images := num_images;
     FluxProUltraInput.enable_safety_checker := None;
     FluxProUltraInput.safety_tolerance := None;
     FluxProUltraInput.output_format := None;
     FluxProUltraInput.aspect_ratio := None;
     FluxProUltraInput.raw := raw;
     FluxProUltraInput.image_url := image_url;
     FluxProUltraInput.image_prompt_strength := image_prompt_strength |}.

(** ** The realtime action *)

(** What the [onResult] callback of [generateImageRealtime] returns. *)
Module RealtimeResult.
Record t : Type := {
  status : string;
  imageUrl : option string
}.
End RealtimeResult.

(** The [onResult] callback: it logs [result.data.images] and returns the
    url of [result.data.images[0]], with no guard on either read. *)
Definition generateImageRealtime_onResult (result : SubscribeResult) :
    Completion RealtimeResult.t :=
  (* the argument of the log: result.data.images *)
  _ ← read_data_images result;
  imgs ← read_data_images result;
  match imgs with
  | None => Throw (ThrownError (TypeError_read "0"))
  | Some [] => Throw (ThrownError (TypeError_read "url"))
  | Some (first :: _) =>
      Return {| RealtimeResult.status := "COMPLETED";
                RealtimeResult.imageUrl := url first |}
  end.

(** The message [generateImageRealtime] sends over the connection. *)
Definition generateImageRealtime_message (prompt : string)
    (aspectRatio : AspectRatio) : gmap string JSValue :=
  object_literal
    [ ("prompt", VString prompt);
      ("aspect_ratio", VString (AspectRatio_string aspectRatio));
      ("output_format", VString "jpeg");
      ("enable_safety_checker", VBoolean false) ].

(** The second argument of [fal.realtime.connect], and the connection it
    returns. *)
Record RealtimeOptions : Type := {
  connectionKey : string;
  onResult : SubscribeResult -> Completion RealtimeResult.t
}.

Record Connection : Type := {
  send : gmap string JSValue -> Completion unit
}.

Section Realtime.

(** [fal.realtime.connect], the client's call that opens the channel. *)
Variable fal_realtime_connect : string -> RealtimeOptions -> Completion Connection.

(** The action has no [try] block and no [return]: it resolves to
    [undefined] once the message is handed to the connection. *)
Definition generateImageRealtime (apiKey prompt : string)
    (aspectRatio : AspectRatio) (model : ModelAlias) : Completion unit :=
  connection ← fal_realtime_connect (AVAILABLE_MODELS model)
                 {| connectionKey := "image-generation";
                    onResult := generateImageRealtime_onResult |};
  _ ← send connection (generateImageRealtime_message prompt aspectRatio);
  Return tt.

End Realtime.

(** ** The display component *)

(** What [ImageDisplay] renders inside the card: the image element, or the
    placeholder block with its text. *)
Inductive CardBody : Type :=
| Img (src alt : string)
| Placeholder (text : string).

Record Card : Type := {
  CardTitle : string;
  CardDescription : string;
  CardContent : CardBody
}.

(** [result] is a string or [null]; the conditional tests its truthiness. *)
Definition ImageDisplay (result : option string) : Card :=
  {| CardTitle := "Generated Image";
     CardDescription := "Your AI-generated artwork will appear here";
     CardContent :=
       match result with
       | Some src =>
           if String.eqb src "" then Placeholder "No image generated yet"
           else Img src "Generated image"
       | None => Placeholder "No image generated yet"
       end |}.

(** ** Vocabulary of the further statements *)

(** The six properties every payload of [generateImage] has. *)
Definition generateImage_keys : gset string :=
  {[ "prompt"; "aspect_ratio"; "num_images"; "enable_safety_checker";
     "safety_tolerance"; "output_format" ]}.

(** The nine properties every payload of [generateFluxProUltraImage] has. *)
Definition generateFluxProUltraImage_keys : gset string :=
  {[ "prompt"; "seed"; "sync_mode"; "num_images"; "enable_safety_checker";
     "safety_tolerance"; "output_format"; "aspect_ratio"; "raw" ]}.

(** The property [key] when [present], no property otherwise. *)
Definition key_when (present : bool) (key : string) : gset string :=
  if present then {[ key ]} else ∅.

(** Whether the caller supplied an optional value. *)
Definition supplied {A : Type} (o : option A) : bool :=
  match o with
  | Some _ => true
  | None => false
  end.

(** A connection whose [send] completes as given. *)
Definition connection_of (c : Completion unit) : Connection :=
  {| send := fun _ => c |}.

(** A realtime client whose [connect] completes as given. *)
Definition realtime_client (c : Completion Connection) :
    string -> RealtimeOptions -> Completion Connection :=
  fun _ _ => c.

(** A rejection of the provider's client with an HTTP status. *)
Definition forbidden : Thrown :=
  ThrownError {| message := "Forbidden"; error_status := Some 403%Z |}.

(** ** Proof automation *)

(** A lookup in the payload of [generateFluxProUltraImage]: both spreads of
    the literal are settled by cases on their operands. *)
Ltac payload_lookup a :=
  unfold generateFluxProUltraImage_input, object_literal;
  destruct (FluxProUltraInput.image_url a) as [u|];
  [destruct (negb (String.eqb u ""))|];
  (destruct (FluxProUltraInput.image_prompt_strength a) as [x|];
   [destruct (ToBoolean x)|]);
  reflexivity.

(** * Properties *)

(** ** Comparison and clamping of numbers *)

Section Comparison.

Implicit Types x y : number.

Lemma SFcompare_antisym x y c :
  SFcompare x y = Some c -> SFcompare y x = Some (CompOpp c).
Proof.
  destruct x as [sx|sx| |sx mx ex], y as [sy|sy| |sy my ey]; simpl;
    try discriminate;
    try (intros [= <-]; repeat match goal with b : bool |- _ => destruct b end;
         reflexivity).
  intros [= <-]. f_equal.
  destruct sx, sy; try reflexivity;
    rewrite (Z.compare_antisym ex ey);
    destruct (ex ?= ey)%Z eqn:E; simpl; try reflexivity.
  - rewrite (Pos.compare_cont_antisym mx my Eq). reflexivity.
  - f_equal. rewrite (Pos.compare_cont_antisym mx my Eq). reflexivity.
Qed.

Lemma SFcompare_defined x y :
  is_NaN x = false -> is_NaN y = false -> exists c, SFcompare x y = Some c.
Proof.
  destruct x, y; simpl; try discriminate; eauto.
Qed.

Lemma SFltb_SFleb x y : (x < y)%js = true -> (x <= y)%js = true.
Proof.
  unfold SFltb, SFleb. destruct (SFcompare x y) as [[]|]; congruence.
Qed.

Lemma SFltb_false_SFleb x y :
  is_NaN x = false -> is_NaN y = false ->
  (x < y)%js = false -> (y <= x)%js = true.
Proof.
  intros Hx Hy. destruct (SFcompare_defined x y Hx Hy) as [c Hc].
  unfold SFltb, SFleb. rewrite Hc, (SFcompare_antisym _ _ _ Hc).
  destruct c; simpl; congruence.
Qed.

Lemma SFleb_refl x : is_NaN x = false -> (x <= x)%js = true.
Proof.
  intros Hx. destruct (SFcompare_defined x x Hx Hx) as [c Hc].
  pose proof (SFcompare_antisym _ _ _ Hc) as Hc'.
  unfold SFleb. rewrite Hc. destruct c; try reflexivity.
  rewrite Hc in Hc'. discriminate.
Qed.

Lemma SFleb_not_NaN_l x y : (x <= y)%js = true -> is_NaN x = false.
Proof. destruct x; simpl; try reflexivity. discriminate. Qed.

Lemma SFleb_not_NaN_r x y : (x <= y)%js = true -> is_NaN y = false.
Proof. destruct x, y; simpl; try reflexivity; discriminate. Qed.

Lemma SFleb_SFltb_false x y : (x <= y)%js = true -> (y < x)%js = false.
Proof.
  unfold SFleb, SFltb. destruct (SFcompare x y) as [c|] eqn:Hc; [|discriminate].
  rewrite (SFcompare_antisym _ _ _ Hc). destruct c; simpl; congruence.
Qed.

End Comparison.

Section Clamping.

Implicit Types n m : number.

Lemma int_1 : int 1 = S754_finite false 4503599627370496 (-52).
Proof. reflexivity. Qed.

Lemma int_4 : int 4 = S754_finite false 4503599627370496 (-50).
Proof. reflexivity. Qed.

(** Two finite numbers that compare equal are the same value. *)
Lemma SFcompare_Eq_finite s p e y :
  SFcompare (S754_finite s p e) y = Some Eq -> y = S754_finite s p e.
Proof.
  destruct y as [sy|sy| |sy my ey]; simpl.
  - destruct s; discriminate.
  - destruct s, sy; discriminate.
  - discriminate.
  - intros [= H]. destruct s, sy; try discriminate;
      destruct (e ?= ey)%Z eqn:E; try discriminate;
      apply Z.compare_eq in E; subst ey.
    + destruct (Pos.compare_cont Eq p my) eqn:C; try discriminate.
      apply Pos.compare_eq in C. now subst.
    + apply Pos.compare_eq in H. now subst.
Qed.

Lemma Math_max_1 n :
  Math.max [int 1; n] =
  if is_NaN n then NaN else if (int 1 < n)%js then n else int 1.
Proof. rewrite int_1. destruct n as [[]|[]| |[] p e]; reflexivity. Qed.

Lemma Math_min_4 m :
  Math.min [m; int 4] =
  if is_NaN m then NaN else if (int 4 < m)%js then int 4 else m.
Proof. rewrite int_4. destruct m as [[]|[]| |[] p e]; reflexivity. Qed.

Lemma clamped_eq n :
  clamped n =
  if is_NaN n then NaN
  else if (int 1 < n)%js then (if (int 4 < n)%js then int 4 else n)
       else int 1.
Proof.
  unfold clamped. rewrite Math_max_1, Math_min_4.
  destruct (is_NaN n) eqn:Hn; [reflexivity|].
  destruct (int 1 < n)%js; [now rewrite Hn | reflexivity].
Qed.

(** A [NaN] count is not clamped: it reaches the payload as [NaN]. *)
Lemma clamped_NaN : clamped NaN = NaN.
Proof. reflexivity. Qed.

(** Every count that is a number is sent as a value between 1 and 4. *)
Lemma clamped_range n : is_NaN n = false -> in_1_4 (clamped n) = true.
Proof.
  intros Hn. rewrite clamped_eq, Hn.
  destruct (int 1 < n)%js eqn:H1; [|reflexivity].
  destruct (int 4 < n)%js eqn:H4; [reflexivity|].
  unfold in_1_4. rewrite (SFltb_SFleb _ _ H1). simpl.
  now apply SFltb_false_SFleb.
Qed.

(** A count between 1 and 4 is sent unchanged. *)
Lemma clamped_id n : in_1_4 n = true -> clamped n = n.
Proof.
  unfold in_1_4. intros [H1 H4]%andb_true_iff.
  rewrite clamped_eq, (SFleb_not_NaN_r _ _ H1), (SFleb_SFltb_false _ _ H4).
  destruct (int 1 < n)%js eqn:Hlt; [reflexivity|].
  revert H1 Hlt. unfold SFleb, SFltb. rewrite int_1.
  destruct (SFcompare _ n) as [[]|] eqn:Hc; try discriminate.
  intros _ _. now apply SFcompare_Eq_finite in Hc.
Qed.

Lemma generateImage_input_num_images prompt aspectRatio n options :
  generateImage_input prompt aspectRatio n options !! "num_images"
  = Some (VNumber (clamped n)).
Proof.
  unfold generateImage_input, object_literal.
  destruct (options ≫= Options.seed), (options ≫= Options.raw); reflexivity.
Qed.

End Clamping.

(** ** The response normaliser of [generateImage] *)

Section GenerateImage.

Variable fal_subscribe : string -> SubscribeOptions -> Completion SubscribeResult.

Variables (apiKey prompt : string) (aspectRatio : AspectRatio)
          (model : ModelAlias) (numImages : option number)
          (options : option Options.t).

Lemma sum_costs_fold (f : Image -> number) (imgs : list Image) (a : number) :
  fold_left (fun acc image => (acc + f image)%js) imgs a
  = fold_left (fun acc c => (acc + c)%js) (map f imgs) a.
Proof.
  revert a. induction imgs as [|img imgs IH]; intros a; simpl; [reflexivity|].
  apply IH.
Qed.

(** The [try] block, path by path. *)
Lemma generateImage_try_cases :
  generateImage_try fal_subscribe prompt aspectRatio model (numImages ?? int 1) options
  = match fal_subscribe (AVAILABLE_MODELS model)
    (generateImage_request prompt aspectRatio numImages options) with
    | Throw t => Throw t
    | Return result =>
        match data result with
        | None => Throw (ThrownError (TypeError_read "images"))
        | Some d =>
            match images d with
            | None => Throw (ThrownError (TypeError_read "map"))
            | Some [] => Throw (ThrownError (Error "No images in response"))
            | Some imgs =>
                Return {| status := "COMPLETED";
                          imageUrls := map url imgs;
                          cost := sum_costs (map (image_cost model) imgs) |}
            end
        end
    end.
Proof.
  unfold generateImage_try, generateImage_request.
  destruct (fal_subscribe _ _) as [result|t]; [|reflexivity].
  destruct result as [[[[[|img imgs]|]]|]]; try reflexivity.
  cbn. unfold sum_costs. rewrite <- sum_costs_fold. reflexivity.
Qed.

(** A response with at least one image is normalised to a completed
    result: the urls in the order of the response, and the costs of the
    images added up from left to right. *)
Lemma generateImage_completed result img imgs :
  fal_subscribe (AVAILABLE_MODELS model)
    (generateImage_request prompt aspectRatio numImages options) = Return result ->
  optional_images result = Some (img :: imgs) ->
  generateImage fal_subscribe apiKey prompt aspectRatio model numImages options
  = Return {| status := "COMPLETED";
              imageUrls := map url (img :: imgs);
              cost := sum_costs (map (image_cost model) (img :: imgs)) |}.
Proof.
  intros Hcall Himgs. unfold generateImage.
  rewrite generateImage_try_cases, Hcall.
  destruct result as [[[[l|]]|]]; try discriminate.
  cbn in Himgs. injection Himgs as ->. reflexivity.
Qed.

(** An empty image list is reported as such. *)
Lemma generateImage_empty result :
  fal_subscribe (AVAILABLE_MODELS model)
    (generateImage_request prompt aspectRatio numImages options) = Return result ->
  optional_images result = Some [] ->
  generateImage fal_subscribe apiKey prompt aspectRatio model numImages options
  = Throw (ThrownError (Error "Failed to generate image: No images in response")).
Proof.
  intros Hcall Himgs. unfold generateImage.
  rewrite generateImage_try_cases, Hcall.
  destruct result as [[[[l|]]|]]; try discriminate.
  cbn in Himgs. injection Himgs as ->. reflexivity.
Qed.

(** What a fulfilled call has seen and returns. *)
Lemma generateImage_Return_inv r :
  generateImage fal_subscribe apiKey prompt aspectRatio model numImages options
  = Return r ->
  exists result img imgs,
    fal_subscribe (AVAILABLE_MODELS model)
    (generateImage_request prompt aspectRatio numImages options) = Return result
    /\ optional_images result = Some (img :: imgs)
    /\ r = {| status := "COMPLETED";
              imageUrls := map url (img :: imgs);
              cost := sum_costs (map (image_cost model) (img :: imgs)) |}.
Proof.
  unfold generateImage. rewrite generateImage_try_cases.
  destruct (fal_subscribe _ _) as [result|t]; [|discriminate].
  destruct result as [[[[[|img imgs]|]]|]]; try discriminate.
  cbn. intros [= <-]. eexists _, img, imgs. repeat split; reflexivity.
Qed.

(** A fulfilled call never carries an empty url list. *)
Lemma generateImage_Return_nonempty r :
  generateImage fal_subscribe apiKey prompt aspectRatio model numImages options
  = Return r ->
  status r = "COMPLETED" /\ imageUrls r <> [].
Proof.
  intros (result & img & imgs & _ & _ & ->)%generateImage_Return_inv.
  split; [reflexivity | discriminate].
Qed.

(** Without images the call is rejected, whatever else the response holds. *)
Lemma generateImage_no_images_rejected result :
  fal_subscribe (AVAILABLE_MODELS model)
    (generateImage_request prompt aspectRatio numImages options) = Return result ->
  optional_images result = None \/ optional_images result = Some [] ->
  exists t,
    generateImage fal_subscribe apiKey prompt aspectRatio model numImages options
    = Throw t.
Proof.
  intros Hcall Himgs. unfold generateImage.
  rewrite generateImage_try_cases, Hcall.
  destruct result as [[[[[|img imgs]|]]|]]; cbn; eauto.
  destruct Himgs; discriminate.
Qed.

(** A response without an image list is rejected by the output log,
    before the guard against missing images is reached: the message is
    the engine's [TypeError], not the one of the guard. *)
Lemma generateImage_absent_images result :
  fal_subscribe (AVAILABLE_MODELS model)
    (generateImage_request prompt aspectRatio numImages options) = Return result ->
  optional_images result = None ->
  exists prop : string,
    generateImage fal_subscribe apiKey prompt aspectRatio model numImages options
    = Throw (ThrownError (Error ("Failed to generate image: "
                                 +:+ message (TypeError_read prop))))
    /\ contains "No images in response"
         ("Failed to generate image: " +:+ message (TypeError_read prop)) = false.
Proof.
  intros Hcall Himgs. unfold generateImage.
  rewrite generateImage_try_cases, Hcall.
  destruct result as [[[[l|]]|]]; try discriminate.
  - exists "map". split; reflexivity.
  - exists "images". split; reflexivity.
Qed.

(** Every rejection comes out of the [catch] clause, built from what the
    [try] block threw. *)
Lemma generateImage_Throw_inv t :
  generateImage fal_subscribe apiKey prompt aspectRatio model numImages options
  = Throw t ->
  exists underlying,
    generateImage_try fal_subscribe prompt aspectRatio model
                      (numImages ?? int 1) options = Throw underlying
    /\ t = ThrownError (Error ("Failed to generate image: "
                               +:+ errorMessage underlying)).
Proof.
  unfold generateImage, try_catch, rethrow.
  destruct (generateImage_try _ _ _ _ _ _) as [r|u]; [discriminate|].
  intros [= <-]. eauto.
Qed.

(** What the [try] block can throw: the provider's rejection, or one of
    three errors of its own. *)
Lemma generateImage_try_Throw_inv underlying :
  generateImage_try fal_subscribe prompt aspectRatio model
                    (numImages ?? int 1) options = Throw underlying ->
  fal_subscribe (AVAILABLE_MODELS model)
    (generateImage_request prompt aspectRatio numImages options) = Throw underlying
  \/ underlying = ThrownError (TypeError_read "images")
  \/ underlying = ThrownError (TypeError_read "map")
  \/ underlying = ThrownError (Error "No images in response").
Proof.
  rewrite generateImage_try_cases.
  destruct (fal_subscribe _ _) as [result|t]; [|intros [= <-]; now left].
  destruct result as [[[[[|img imgs]|]]|]]; cbn; intros [= <-]; auto.
Qed.

End GenerateImage.

(** ** The cost estimator *)

Section Cost.

Implicit Types (w h v d r : number) (model : ModelAlias) (image : Image).

Lemma COST_PER_MEGAPIXEL_known model : exists r, COST_PER_MEGAPIXEL model = Some r.
Proof. destruct model; eexists; reflexivity. Qed.

(** No rate of the table is falsy, so the [|| 0] of the lookup never fires. *)
Lemma COST_PER_MEGAPIXEL_truthy model r :
  COST_PER_MEGAPIXEL model = Some r -> ToBoolean r = true.
Proof. destruct model; intros [= <-]; reflexivity. Qed.

Lemma calculateImageCost_formula w h model r :
  COST_PER_MEGAPIXEL model = Some r ->
  calculateImageCost w h model = round3 (((w * h) / int 1000000) * r)%js.
Proof.
  intros Hr. unfold calculateImageCost, round3, or_number.
  rewrite Hr, (COST_PER_MEGAPIXEL_truthy _ _ Hr). reflexivity.
Qed.

Lemma ToBoolean_false v :
  ToBoolean v = false <-> (exists s, v = S754_zero s) \/ v = NaN.
Proof.
  split.
  - destruct v; try discriminate; eauto.
  - intros [[s ->]| ->]; reflexivity.
Qed.

Lemma or_number_missing d : or_number None d = d.
Proof. reflexivity. Qed.

Lemma or_number_truthy v d : ToBoolean v = true -> or_number (Some v) d = v.
Proof. intros H. unfold or_number. now rewrite H. Qed.

Lemma or_number_falsy v d : ToBoolean v = false -> or_number (Some v) d = d.
Proof. intros H. unfold or_number. now rewrite H. Qed.

(** The digits [toFixed] prints are those of the integer nearest to the
    scaled magnitude, the upper one at a tie: for a negative exponent
    [-k], [n - 1/2 <= m * 10^f / 2^k < n + 1/2]. *)
Lemma nearest_scaled_neg (m k : positive) (f : nat) :
  let a := (Zpos m * 10 ^ Z.of_nat f)%Z in
  let b := (2 ^ Zpos k)%Z in
  let n := Z.of_N (nearest_scaled m (Zneg k) f) in
  (2 * b * n <= 2 * a + b < 2 * b * n + 2 * b)%Z.
Proof.
  intros a b n. unfold n, nearest_scaled. fold a. fold b.
  assert (Hb : (0 < b)%Z) by (apply Z.pow_pos_nonneg; lia).
  assert (Ha : (0 <= a)%Z) by (unfold a; apply Z.mul_nonneg_nonneg; [lia|];
                               apply Z.pow_nonneg; lia).
  replace (2 ^ (Zpos k + 1))%Z with (2 * b)%Z
    by (unfold b; rewrite Z.pow_add_r by lia; lia).
  rewrite Z2N.id by (apply Z.div_pos; lia).
  pose proof (Z.mul_div_le (2 * a + b) (2 * b) ltac:(lia)).
  pose proof (Z.mul_succ_div_gt (2 * a + b) (2 * b) ltac:(lia)).
  lia.
Qed.

Lemma nearest_scaled_nonneg (m : positive) (e : Z) (f : nat) :
  (0 <= e)%Z ->
  Z.of_N (nearest_scaled m e f) = (Zpos m * 10 ^ Z.of_nat f * 2 ^ e)%Z.
Proof.
  intros He. unfold nearest_scaled.
  assert (H : (0 <= Zpos m * 10 ^ Z.of_nat f * 2 ^ e)%Z).
  { apply Z.mul_nonneg_nonneg; [apply Z.mul_nonneg_nonneg; [lia|]|];
      apply Z.pow_nonneg; lia. }
  destruct e; try lia; now rewrite Z2N.id.
Qed.

(** Rounding a finite number below 10^21 gives the value of a decimal
    with three digits after the point. *)
Lemma round3_finite s m e :
  at_least_1e21 m e = false ->
  round3 (S754_finite s m e) = decimal s (nearest_scaled m e 3) 3.
Proof. intros H. unfold round3, toFixed. now rewrite H. Qed.

(** A dimension of zero is replaced like a missing one. *)
Lemma image_cost_zero_width model image s :
  width image = Some (S754_zero s) ->
  image_cost model image
  = image_cost model {| url := url image; width := None; height := height image |}.
Proof. intros H. unfold image_cost. rewrite H. reflexivity. Qed.

Lemma image_cost_zero_height model image s :
  height image = Some (S754_zero s) ->
  image_cost model image
  = image_cost model {| url := url image; width := width image; height := None |}.
Proof. intros H. unfold image_cost. rewrite H. reflexivity. Qed.

(** With both dimensions present and truthy, or missing, the cost
    [generateImage] adds is the estimator's. *)
Lemma image_cost_estimator model image :
  (forall v, width image = Some v -> ToBoolean v = true) ->
  (forall v, height image = Some v -> ToBoolean v = true) ->
  image_cost model image = estimator_image_cost model image.
Proof.
  intros Hw Hh. unfold image_cost, estimator_image_cost, or_number, nullish.
  destruct (width image) as [w|], (height image) as [h|];
    try rewrite (Hw w eq_refl); try rewrite (Hh h eq_refl); reflexivity.
Qed.

(** The fallback of [generateImage] replaces a dimension that is missing,
    zero or [NaN]. *)
Lemma or_number_effective (d : option number) :
  or_number d (int 2048) = effective_dimension d.
Proof. destruct d as [[| | |]|]; reflexivity. Qed.

Lemma image_cost_effective (model : ModelAlias) (img : Image) :
  image_cost model img
  = calculateImageCost (effective_dimension (width img))
                       (effective_dimension (height img)) model.
Proof. unfold image_cost. now rewrite !or_number_effective. Qed.

End Cost.

(** ** The payload builders *)

Section Payloads.

Variable StringToNumber : string -> number.

Implicit Types (options : option Options.t) (a : FluxProUltraInput.t).




Lemma generateImage_input_defaulted prompt aspectRatio n options :
  generateImage_input prompt aspectRatio n options !! "enable_safety_checker"
  = Some (VBoolean ((options ≫= Options.enable_safety_checker) ?? false))
  /\ generateImage_input prompt aspectRatio n options !! "safety_tolerance"
     = Some (VString (SafetyTolerance_string
                        ((options ≫= Options.safety_tolerance) ?? tolerance_6)))
  /\ generateImage_input prompt aspectRatio n options !! "output_format"
     = Some (VString (OutputFormat_string
                        ((options ≫= Options.output_format) ?? jpeg))).
Proof.
  unfold generateImage_input, object_literal.
  destruct (options ≫= Options.seed), (options ≫= Options.raw);
    repeat split; reflexivity.
Qed.

Lemma ultra_input_num_images a :
  generateFluxProUltraImage_input StringToNumber a !! "num_images"
  = Some (VNumber (StringToNumber (FluxProUltraInput.num_images a ?? "1"))).
Proof. payload_lookup a. Qed.

(** [seed] is written into the literal unconditionally: unset, it is a
    property whose value is [undefined]. *)
Lemma ultra_input_seed a :
  generateFluxProUltraImage_input StringToNumber a !! "seed"
  = Some (match FluxProUltraInput.seed a with
          | Some n => VNumber n
          | None => VUndefined
          end).
Proof. payload_lookup a. Qed.



Lemma ultra_input_image_prompt_strength a :
  generateFluxProUltraImage_input StringToNumber a !! "image_prompt_strength"
  = match FluxProUltraInput.image_prompt_strength a with
    | Some x => if ToBoolean x then Some (VNumber x) else None
    | None => None
    end.
Proof.
  unfold generateFluxProUltraImage_input, object_literal.
  destruct (FluxProUltraInput.image_url a) as [u|];
    [destruct (negb (String.eqb u ""))|];
    (destruct (FluxProUltraInput.image_prompt_strength a) as [x|];
     [destruct (ToBoolean x)|]);
    reflexivity.
Qed.

Lemma ultra_input_defaulted a :
  generateFluxProUltraImage_input StringToNumber a !! "enable_safety_checker"
  = Some (VBoolean (FluxProUltraInput.enable_safety_checker a ?? false))
  /\ generateFluxProUltraImage_input StringToNumber a !! "safety_tolerance"
     = Some (VString (SafetyTolerance_string
                        (FluxProUltraInput.safety_tolerance a ?? tolerance_6)))
  /\ generateFluxProUltraImage_input StringToNumber a !! "output_format"
     = Some (VString (OutputFormat_string
                        (FluxProUltraInput.output_format a ?? jpeg))).
Proof. repeat split; payload_lookup a. Qed.

End Payloads.

(** ** The response handling of [generateFluxProUltraImage] *)

Section GenerateFluxProUltraImage.

Variable fal_subscribe : string -> SubscribeOptions -> Completion SubscribeResult.
Variable StringToNumber : string -> number.
Variable a : FluxProUltraInput.t.

(** The [try] block, path by path. *)
Lemma generateFluxProUltraImage_try_cases :
  generateFluxProUltraImage_try fal_subscribe StringToNumber a
  = match fal_subscribe "fal-ai/flux-pro/v1.1-ultra"
            (generateFluxProUltraImage_request StringToNumber a) with
    | Throw t => Throw t
    | Return result =>
        match data result with
        | None => Throw (ThrownError (TypeError_read "images"))
        | Some d =>
            match images d with
            | Some (img :: _) =>
                match url img with
                | Some u =>
                    if String.eqb u ""
                    then Throw (ThrownError (Error "No image URL in response"))
                    else Return u
                | None => Throw (ThrownError (Error "No image URL in response"))
                end
            | _ => Throw (ThrownError (Error "No image URL in response"))
            end
        end
    end.
Proof.
  unfold generateFluxProUltraImage_try, generateFluxProUltraImage_request.
  destruct (fal_subscribe _ _) as [result|t]; [|reflexivity].
  destruct result as [[[[[|img imgs]|]]|]]; reflexivity.
Qed.

(** A fulfilled call returns the url of the first image, whatever follows. *)
Lemma generateFluxProUltraImage_Return_inv u :
  generateFluxProUltraImage fal_subscribe StringToNumber a = Return u ->
  exists result img rest,
    fal_subscribe "fal-ai/flux-pro/v1.1-ultra"
      (generateFluxProUltraImage_request StringToNumber a) = Return result
    /\ optional_images result = Some (img :: rest)
    /\ url img = Some u.
Proof.
  unfold generateFluxProUltraImage. rewrite generateFluxProUltraImage_try_cases.
  destruct (fal_subscribe _ _) as [result|t]; [|discriminate].
  destruct result as [[[[[|img imgs]|]]|]]; try discriminate.
  cbn. destruct (url img) as [v|] eqn:Hv; [|discriminate].
  destruct (String.eqb v ""); [discriminate|].
  intros [= <-]. exists {| data := Some {| images := Some (img :: imgs) |} |}, img, imgs.
  repeat split; try reflexivity. exact Hv.
Qed.

(** Without a first image the call is rejected for the missing url. *)
Lemma generateFluxProUltraImage_no_images result :
  fal_subscribe "fal-ai/flux-pro/v1.1-ultra"
    (generateFluxProUltraImage_request StringToNumber a) = Return result ->
  optional_images result = Some [] ->
  generateFluxProUltraImage fal_subscribe StringToNumber a
  = Throw (ThrownError (Error "Failed to generate image: No image URL in response")).
Proof.
  intros Hcall Himgs. unfold generateFluxProUltraImage.
  rewrite generateFluxProUltraImage_try_cases, Hcall.
  destruct result as [[[[l|]]|]]; try discriminate.
  cbn in Himgs. injection Himgs as ->. reflexivity.
Qed.

Lemma generateFluxProUltraImage_Throw_inv t :
  generateFluxProUltraImage fal_subscribe StringToNumber a = Throw t ->
  exists underlying,
    generateFluxProUltraImage_try fal_subscribe StringToNumber a = Throw underlying
    /\ t = ThrownError (Error ("Failed to generate image: "
                               +:+ errorMessage underlying)).
Proof.
  unfold generateFluxProUltraImage, try_catch, rethrow.
  destruct (generateFluxProUltraImage_try _ _ _) as [r|u]; [discriminate|].
  intros [= <-]. eauto.
Qed.

(** Claim C9. [generateFluxProUltraImage] looks at the first image of the
    response only: it resolves to that image's url (one string) whatever count
    was requested and whatever images follow, and it rejects when the first
    image has no url (or an empty one), even when a later image has one. *)
Theorem generateFluxProUltraImage_first_image_only result img rest :
  fal_subscribe "fal-ai/flux-pro/v1.1-ultra"
    (generateFluxProUltraImage_request StringToNumber a) = Return result ->
  optional_images result = Some (img :: rest) ->
  generateFluxProUltraImage fal_subscribe StringToNumber a
  = match url img with
    | Some u =>
        if String.eqb u ""
        then Throw (ThrownError
                      (Error "Failed to generate image: No image URL in response"))
        else Return u
    | None =>
        Throw (ThrownError
                 (Error "Failed to generate image: No image URL in response"))
    end.
Proof.
  intros Hcall Himgs. unfold generateFluxProUltraImage.
  rewrite generateFluxProUltraImage_try_cases, Hcall.
  destruct result as [[[[l|]]|]]; try discriminate.
  cbn in Himgs. injection Himgs as ->. cbn.
  destruct (url img) as [u|]; [|reflexivity].
  destruct (String.eqb u ""); reflexivity.
Qed.

End GenerateFluxProUltraImage.

(** ** Error surfacing *)

Lemma append_empty_r (s : string) : s +:+ "" = s.
Proof.
  induction s as [|c s IH]; [reflexivity|].
  change (String c (s +:+ "") = String c s). now rewrite IH.
Qed.

(** The message of the [catch] clauses, case by case. *)
Lemma errorMessage_cases (underlying : Thrown) :
  errorMessage underlying
  = match underlying with
    | ThrownError e =>
        match error_status e with
        | Some code =>
            if (code =? 0)%Z then message e
            else message e +:+ " (Status: " +:+ String_of_Z code +:+ ")"
        | None => message e
        end
    | ThrownValue _ => "Unknown error"
    end.
Proof.
  destruct underlying as [[msg [code|]]|v]; simpl; try reflexivity.
  - destruct (code =? 0)%Z; [apply append_empty_r | reflexivity].
  - apply append_empty_r.
Qed.

(** Claim C8. A rejection of [generateImage] is an [Error] whose message is
    "Failed to generate image: " followed by the message of the error the
    [try] block threw, then " (Status: code)" when that error carries a
    status code (a number other than 0, which JavaScript takes for no
    status); for a thrown value that is no [Error] the text after the prefix
    is "Unknown error". *)
Theorem generateImage_failure_message
    (fal_subscribe : string -> SubscribeOptions -> Completion SubscribeResult)
    (apiKey prompt : string) (aspectRatio : AspectRatio) (model : ModelAlias)
    (numImages : option number) (options : option Options.t) (t : Thrown) :
  generateImage fal_subscribe apiKey prompt aspectRatio model numImages options
  = Throw t ->
  exists underlying : Thrown,
    generateImage_try fal_subscribe prompt aspectRatio model
                      (numImages ?? int 1) options = Throw underlying
    /\ t = ThrownError (Error (
             "Failed to generate image: " +:+
             match underlying with
             | ThrownError e =>
                 match error_status e with
                 | Some code =>
                     if (code =? 0)%Z then message e
                     else message e +:+ " (Status: " +:+ String_of_Z code +:+ ")"
                 | None => message e
                 end
             | ThrownValue _ => "Unknown error"
             end)).
Proof.
  intros (underlying & Htry & ->)%generateImage_Throw_inv.
  exists underlying. split; [exact Htry|].
  now rewrite errorMessage_cases.
Qed.

(** The other action surfaces its failures in the same words. *)
Lemma generateFluxProUltraImage_failure_message
    (fal_subscribe : string -> SubscribeOptions -> Completion SubscribeResult)
    (StringToNumber : string -> number) (a : FluxProUltraInput.t) (t : Thrown) :
  generateFluxProUltraImage fal_subscribe StringToNumber a = Throw t ->
  exists underlying : Thrown,
    generateFluxProUltraImage_try fal_subscribe StringToNumber a = Throw underlying
    /\ t = ThrownError (Error (
             "Failed to generate image: " +:+
             match underlying with
             | ThrownError e =>
                 match error_status e with
                 | Some code =>
                     if (code =? 0)%Z then message e
                     else message e +:+ " (Status: " +:+ String_of_Z code +:+ ")"
                 | None => message e
                 end
             | ThrownValue _ => "Unknown error"
             end)).
Proof.
  intros (underlying & Htry & ->)%generateFluxProUltraImage_Throw_inv.
  exists underlying. split; [exact Htry|].
  now rewrite errorMessage_cases.
Qed.

(** ** Sign of the cost *)

Section Sign.

Implicit Types (x y : number) (m : Z) (mrs : shr_record).

Lemma nonnegative_SFleb x : nonnegative x = (int 0 <= x)%js.
Proof. destruct x as [[]|[]| |[] p e]; reflexivity. Qed.

Lemma shr_1_nonneg mrs : (0 <= shr_m mrs)%Z -> (0 <= shr_m (shr_1 mrs))%Z.
Proof.
  destruct mrs as [m r s]. destruct m as [|[p|p|]|p]; cbn; lia.
Qed.

Lemma iter_shr_1_nonneg (p : positive) mrs :
  (0 <= shr_m mrs)%Z -> (0 <= shr_m (SpecFloat.iter_pos shr_1 p mrs))%Z.
Proof.
  revert mrs. induction p as [p IH|p IH|]; intros mrs H; cbn.
  - apply IH, IH, shr_1_nonneg, H.
  - apply IH, IH, H.
  - apply shr_1_nonneg, H.
Qed.

Lemma shr_fexp_nonneg m (e : Z) (l : location) :
  (0 <= m)%Z -> (0 <= shr_m (fst (shr_fexp prec emax m e l)))%Z.
Proof.
  intros Hm. unfold shr_fexp, shr.
  assert (H0 : (0 <= shr_m (shr_record_of_loc m l))%Z)
    by (destruct l as [|[]]; exact Hm).
  destruct (fexp prec emax (Zdigits2 m + e) - e)%Z; cbn [fst]; try exact H0.
  now apply iter_shr_1_nonneg.
Qed.

Lemma round_nearest_even_nonneg m (l : location) :
  (0 <= m)%Z -> (0 <= round_nearest_even m l)%Z.
Proof.
  intros Hm. unfold round_nearest_even.
  destruct l as [|[]]; try destruct (Z.even m); lia.
Qed.

(** Rounding a magnitude keeps the sign it is given and yields no [NaN]. *)
Lemma binary_round_aux_nonneg m (e : Z) (l : location) :
  (0 <= m)%Z -> nonnegative (binary_round_aux prec emax false m e l) = true.
Proof.
  intros Hm. unfold binary_round_aux.
  pose proof (shr_fexp_nonneg m e l Hm) as H1.
  destruct (shr_fexp prec emax m e l) as [mrs1 e1]. cbn [fst] in H1.
  pose proof (shr_fexp_nonneg _ e1 loc_Exact
                (round_nearest_even_nonneg _ (loc_of_shr_record mrs1) H1)) as H2.
  destruct (shr_fexp prec emax _ e1 loc_Exact) as [mrs2 e2]. cbn [fst] in H2.
  destruct (shr_m mrs2) as [|p|p]; [reflexivity| |lia].
  destruct (e2 <=? emax - prec)%Z; reflexivity.
Qed.

Lemma SFmul_nonneg x y :
  nonnegative x = true -> nonnegative y = true ->
  ToBoolean x = true -> ToBoolean y = true ->
  nonnegative (x * y)%js = true.
Proof.
  destruct x as [sx|[]| |[] px ex], y as [sy|[]| |[] py ey];
    try discriminate; intros _ _ _ _; try reflexivity.
  apply binary_round_aux_nonneg. lia.
Qed.

Lemma SFmul_nonneg_finite x (p : positive) (e : Z) :
  nonnegative x = true ->
  nonnegative (x * S754_finite false p e)%js = true.
Proof.
  destruct x as [sx|[]| |[] px ex]; try discriminate; intros _; try reflexivity.
  apply binary_round_aux_nonneg. lia.
Qed.

Lemma SFdiv_nonneg_finite x (p : positive) (e : Z) :
  nonnegative x = true ->
  nonnegative (x / S754_finite false p e)%js = true.
Proof.
  destruct x as [sx|[]| |[] px ex]; try discriminate; intros _; try reflexivity.
  cbn [SFdiv xorb]. unfold SFdiv_core_binary.
  set (m' := match _ with Zpos _ => _ | Z0 => _ | Zneg _ => _ end).
  assert (Hm' : (0 <= m')%Z).
  { unfold m'. destruct (_ - _ - _)%Z; try lia. apply Z.shiftl_nonneg. lia. }
  pose proof (Z.div_pos m' (Zpos p) Hm' ltac:(lia)) as Hq.
  unfold Z.div in Hq. destruct (Z.div_eucl m' (Zpos p)) as [q r].
  now apply binary_round_aux_nonneg.
Qed.

Lemma decimal_nonneg (n : N) (f : nat) : nonnegative (decimal false n f) = true.
Proof.
  destruct n as [|p]; [reflexivity|]. unfold decimal.
  now apply SFdiv_nonneg_finite.
Qed.

Lemma round3_nonneg x : nonnegative x = true -> nonnegative (round3 x) = true.
Proof.
  destruct x as [sx|[]| |[] p e]; try discriminate; intros _; try reflexivity.
  unfold round3, toFixed. destruct (at_least_1e21 p e); [reflexivity|].
  apply decimal_nonneg.
Qed.

Lemma binary_normalize_nonneg m (e : Z) :
  (0 <= m)%Z -> nonnegative (binary_normalize prec emax m e false) = true.
Proof.
  intros Hm. unfold binary_normalize.
  destruct m as [|q|q]; [reflexivity| |lia].
  unfold binary_round.
  destruct (shl_align q e (fexp prec emax (Zpos (digits2_pos q) + e))) as [mz ez].
  apply binary_round_aux_nonneg. lia.
Qed.

Lemma SFadd_nonneg x y :
  nonnegative x = true -> nonnegative y = true -> nonnegative (x + y)%js = true.
Proof.
  destruct x as [[]|[]| |[] px ex], y as [[]|[]| |[] py ey];
    try discriminate; intros _ _; try reflexivity.
  cbn [SFadd cond_Zopp]. apply binary_normalize_nonneg. lia.
Qed.

Lemma sum_costs_nonneg (costs : list number) :
  Forall (fun c => nonnegative c = true) costs ->
  nonnegative (sum_costs costs) = true.
Proof.
  unfold sum_costs. generalize (int 0) (eq_refl : nonnegative (int 0) = true).
  induction costs as [|c costs IH]; intros acc Hacc Hall; [exact Hacc|].
  inversion Hall as [|? ? Hc Hrest]; subst. cbn [fold_left].
  apply IH; [|exact Hrest]. now apply SFadd_nonneg.
Qed.

(** The dimension the cost is computed from is above zero as soon as the
    response does not give a negative one. *)
Lemma effective_dimension_positive (d : option number) :
  not_negative d = true ->
  nonnegative (effective_dimension d) = true
  /\ ToBoolean (effective_dimension d) = true.
Proof. destruct d as [[s|[]| |[] p e]|]; try discriminate; split; reflexivity. Qed.

Lemma image_cost_nonneg (model : ModelAlias) (img : Image) :
  not_negative (width img) = true -> not_negative (height img) = true ->
  nonnegative (image_cost model img) = true.
Proof.
  intros [Hw Hw']%effective_dimension_positive [Hh Hh']%effective_dimension_positive.
  rewrite image_cost_effective.
  destruct (COST_PER_MEGAPIXEL_known model) as [r Hr].
  rewrite (calculateImageCost_formula _ _ _ _ Hr).
  apply round3_nonneg.
  assert (Hrate : exists p e, r = S754_finite false p e)
    by (destruct model; injection Hr as <-; eexists _, _; reflexivity).
  destruct Hrate as (p & e & ->).
  apply SFmul_nonneg_finite.
  change (int 1000000) with (S754_finite false 8589934592000000 (-33)).
  apply SFdiv_nonneg_finite. now apply SFmul_nonneg.
Qed.

(** The total of a fulfilled call is never negative, and never [NaN], when
    no image of the response has a negative dimension. *)
Lemma generateImage_cost_nonneg
    (fal_subscribe : string -> SubscribeOptions -> Completion SubscribeResult)
    (apiKey prompt : string) (aspectRatio : AspectRatio) (model : ModelAlias)
    (numImages : option number) (options : option Options.t)
    (result : SubscribeResult) (imgs : list Image) (res : GenerationResult) :
  fal_subscribe (AVAILABLE_MODELS model)
    (generateImage_request prompt aspectRatio numImages options) = Return result ->
  optional_images result = Some imgs ->
  Forall (fun img => not_negative (width img) = true
                     /\ not_negative (height img) = true) imgs ->
  generateImage fal_subscribe apiKey prompt aspectRatio model numImages options
  = Return res ->
  (int 0 <= cost res)%js = true.
Proof.
  intros Hcall Himgs Hdims Hres.
  apply generateImage_Return_inv in Hres
    as (result' & img & rest & Hcall' & Himgs' & ->).
  rewrite Hcall in Hcall'. injection Hcall' as <-.
  rewrite Himgs in Himgs'. injection Himgs' as ->.
  rewrite <- nonnegative_SFleb. cbn [cost]. apply sum_costs_nonneg.
  apply Forall_map. eapply Forall_impl; [exact Hdims|].
  intros i [Hw Hh]. now apply image_cost_nonneg.
Qed.

End Sign.

(** ** Image count *)

(** Claim C1, where the code departs from it. [generateFluxProUltraImage]
    converts the caller's [num_images] string and sends the number as it is:
    a request for "7" images reaches the provider as 7, outside 1..4, while
    [generateImage] sends 4 for the same count. *)
Theorem ultra_num_images_not_clamped :
  generateFluxProUltraImage_input Number_of_digits
    (ultra_call (Some "7") None None None) !! "num_images"
  = Some (VNumber (int 7))
  /\ in_1_4 (int 7) = false
  /\ clamped (int 7) = int 4
  /\ generateImage_input "a lighthouse" ratio_16_9 (int 7) no_options !! "num_images"
     = Some (VNumber (int 4)).
Proof.
  split; [|split; [|split]].
  - rewrite ultra_input_num_images. reflexivity.
  - reflexivity.
  - rewrite clamped_eq. reflexivity.
  - rewrite generateImage_input_num_images, clamped_eq. reflexivity.
Qed.

(** ** Missing images *)

(** Claim C2, where the code departs from it. A response whose [data] has no
    [images] is rejected, but by the [TypeError] of the output log, which
    reads [result.data.images.map] before the guard: the surfaced message does
    not mention "No images in response". *)
Theorem generateImage_images_absent_message :
  generateImage (provider (Return {| data := Some {| images := None |} |}))
                "key" "a lighthouse" ratio_1_1 flux_dev None no_options
  = Throw (ThrownError (Error
      "Failed to generate image: Cannot read properties of undefined (reading 'map')"))
  /\ contains "No images in response"
       "Failed to generate image: Cannot read properties of undefined (reading 'map')"
     = false.
Proof.
  split; [|reflexivity].
  unfold generateImage. rewrite generateImage_try_cases. reflexivity.
Qed.

(** ** Cost of a response *)

(** Claim C3 as stated fails on an image of zero pixels: the estimator's
    formula gives such an image the cost 0, [generateImage] charges it as a
    2048 x 2048 image. *)
Lemma zero_image_not_costed_as_given :
  generateImage (provider (Return (response [zero_image])))
                "key" "a lighthouse" ratio_1_1 flux_dev None no_options
  = Return {| status := "COMPLETED";
              imageUrls := [Some "z"];
              cost := decimal false 105 3 |}
  /\ sum_costs (map (estimator_image_cost flux_dev) [zero_image]) = S754_zero false
  /\ decimal false 105 3 <> S754_zero false.
Proof.
  split; [|split].
  - erewrite generateImage_completed by reflexivity. reflexivity.
  - reflexivity.
  - vm_compute. discriminate.
Qed.

(** Claim C3, amended. For an alias with rate [r] the cost of an image is
    the product [width * height / 1000000 * r] rounded to three decimals, and
    the total of a fulfilled call is the sum, from left to right, of the
    costs of the images of the response, each computed on its own from its
    dimensions, where a dimension that is missing, zero or [NaN] counts as
    2048. *)
Theorem total_cost_is_sum_of_image_costs
    (fal_subscribe : string -> SubscribeOptions -> Completion SubscribeResult)
    (apiKey prompt : string) (aspectRatio : AspectRatio) (model : ModelAlias)
    (numImages : option number) (options : option Options.t) (r : number) :
  COST_PER_MEGAPIXEL model = Some r ->
  (forall w h : number,
      calculateImageCost w h model = round3 (((w * h) / int 1000000) * r)%js)
  /\ (forall res : GenerationResult,
        generateImage fal_subscribe apiKey prompt aspectRatio model numImages options
        = Return res ->
        exists result imgs,
          fal_subscribe (AVAILABLE_MODELS model)
            (generateImage_request prompt aspectRatio numImages options)
          = Return result
          /\ optional_images result = Some imgs
          /\ cost res
             = sum_costs
                 (map (fun img =>
                         round3 (((effective_dimension (width img)
                                   * effective_dimension (height img))
                                  / int 1000000) * r)%js)
                      imgs)).
Proof.
  intros Hr. split.
  - intros w h. now apply calculateImageCost_formula.
  - intros res (result & img & imgs & Hcall & Himgs & ->)%generateImage_Return_inv.
    exists result, (img :: imgs). repeat split; [exact Hcall | exact Himgs |].
    cbn [cost]. f_equal. apply map_ext. intros i.
    rewrite image_cost_effective. now apply calculateImageCost_formula.
Qed.

Lemma total_cost_is_sum_of_image_costs_witness :
  COST_PER_MEGAPIXEL flux_dev = Some (decimal false 25 3)
  /\ (forall w h : number,
        calculateImageCost w h flux_dev
        = round3 (((w * h) / int 1000000) * decimal false 25 3)%js)
  /\ (forall res : GenerationResult,
        generateImage (provider (Return (response example_images)))
                      "key" "a lighthouse" ratio_1_1 flux_dev None no_options
        = Return res ->
        exists result imgs,
          provider (Return (response example_images)) (AVAILABLE_MODELS flux_dev)
            (generateImage_request "a lighthouse" ratio_1_1 None no_options)
          = Return result
          /\ optional_images result = Some imgs
          /\ cost res
             = sum_costs
                 (map (fun img =>
                         round3 (((effective_dimension (width img)
                                   * effective_dimension (height img))
                                  / int 1000000) * decimal false 25 3)%js)
                      imgs)).
Proof.
  split; [reflexivity|].
  apply (total_cost_is_sum_of_image_costs
           (provider (Return (response example_images)))
           "key" "a lighthouse" ratio_1_1 flux_dev None no_options
           (decimal false 25 3)).
  reflexivity.
Defined.

(** The costs of the two images of the worked example are 0.025 and 0.05. *)
Lemma example_image_costs :
  map (image_cost flux_dev) example_images = [decimal false 25 3; decimal false 5 2].
Proof. reflexivity. Qed.

(** Their sum is the binary64 value next above 0.075. *)
Lemma example_sum :
  sum_costs [decimal false 25 3; decimal false 5 2]
  = S754_finite false 5404319552844596 (-56)
  /\ decimal false 75 3 = S754_finite false 5404319552844595 (-56)
  /\ SFsucc prec emax (decimal false 75 3) = S754_finite false 5404319552844596 (-56).
Proof. repeat split; reflexivity. Qed.

(** In exact terms: 0.075 lies strictly between the two neighbouring
    binary64 values, nearer to the lower one, which is its rounding; the sum
    is the upper one. *)
Lemma example_sum_exact :
  (5404319552844595 * 1000 < 75 * 2 ^ 56 < 5404319552844596 * 1000)%Z
  /\ (75 * 2 ^ 56 - 5404319552844595 * 1000
      < 5404319552844596 * 1000 - 75 * 2 ^ 56)%Z.
Proof. split; [split|]; reflexivity. Qed.

(** Claim C4, where the code departs from it. Each image cost is rounded to
    three decimals, their sum is not rounded again: for the worked example
    the returned total is the binary64 value next above 0.075, and rounding
    it to three decimals changes it. *)
Theorem example_total_not_rounded :
  generateImage (provider (Return (response example_images)))
                "key" "a lighthouse" ratio_1_1 flux_dev None no_options
  = Return {| status := "COMPLETED";
              imageUrls := [Some "a"; Some "b"];
              cost := S754_finite false 5404319552844596 (-56) |}
  /\ round3 (S754_finite false 5404319552844596 (-56))
     = S754_finite false 5404319552844595 (-56)
  /\ ~ rounded3 (S754_finite false 5404319552844596 (-56))
  /\ (int 0 <= S754_finite false 5404319552844596 (-56))%js = true.
Proof.
  split; [|split; [|split]].
  - erewrite generateImage_completed by reflexivity.
    vm_compute. reflexivity.
  - reflexivity.
  - unfold rounded3. vm_compute. discriminate.
  - reflexivity.
Qed.

(** Claim C5, where the code departs from it. For the worked example the
    call is fulfilled with status "COMPLETED" and the urls "a", "b" in that
    order, and with the total 0.025 + 0.05 as binary64 addition gives it,
    which is the value next above 0.075 and not 0.075. *)
Theorem example_total_is_not_0_075 :
  generateImage (provider (Return (response example_images)))
                "key" "a lighthouse" ratio_1_1 flux_dev None no_options
  = Return {| status := "COMPLETED";
              imageUrls := [Some "a"; Some "b"];
              cost := (decimal false 25 3 + decimal false 5 2)%js |}
  /\ (decimal false 25 3 + decimal false 5 2)%js
     = SFsucc prec emax (decimal false 75 3)
  /\ (decimal false 25 3 + decimal false 5 2)%js <> decimal false 75 3.
Proof.
  split; [|split].
  - erewrite generateImage_completed by reflexivity.
    vm_compute. reflexivity.
  - reflexivity.
  - vm_compute. discriminate.
Qed.

(** ** Optional and defaulted fields *)


(** Two more departures of [generateFluxProUltraImage]: an unset [seed] is a
    property with the value [undefined], and a supplied strength of 0 is
    left out. *)
Lemma ultra_seed_undefined_when_unset :
  generateFluxProUltraImage_input Number_of_digits
    (ultra_call None None None None) !! "seed"
  = Some VUndefined.
Proof. rewrite ultra_input_seed. reflexivity. Qed.

Lemma ultra_zero_strength_left_out :
  generateFluxProUltraImage_input Number_of_digits
    (ultra_call None None None (Some (int 0))) !! "image_prompt_strength"
  = None.
Proof. rewrite ultra_input_image_prompt_strength. reflexivity. Qed.



(** Claim C7. When the caller leaves the safety checker, the safety
    tolerance and the output format unset, the payload of either action
    holds [enable_safety_checker = false], [safety_tolerance = "6"] and
    [output_format = "jpeg"]. *)
Theorem unset_options_defaulted
    (StringToNumber : string -> number)
    (prompt : string) (aspectRatio : AspectRatio) (n : number)
    (options : option Options.t) (a : FluxProUltraInput.t) :
  options ≫= Options.enable_safety_checker = None ->
  options ≫= Options.safety_tolerance = None ->
  options ≫= Options.output_format = None ->
  FluxProUltraInput.enable_safety_checker a = None ->
  FluxProUltraInput.safety_tolerance a = None ->
  FluxProUltraInput.output_format a = None ->
  (generateImage_input prompt aspectRatio n options !! "enable_safety_checker"
   = Some (VBoolean false)
   /\ generateImage_input prompt aspectRatio n options !! "safety_tolerance"
      = Some (VString "6")
   /\ generateImage_input prompt aspectRatio n options !! "output_format"
      = Some (VString "jpeg"))
  /\ (generateFluxProUltraImage_input StringToNumber a !! "enable_safety_checker"
      = Some (VBoolean false)
      /\ generateFluxProUltraImage_input StringToNumber a !! "safety_tolerance"
         = Some (VString "6")
      /\ generateFluxProUltraImage_input StringToNumber a !! "output_format"
         = Some (VString "jpeg")).
Proof.
  intros Hc Ht Hf Hc' Ht' Hf'. split.
  - destruct (generateImage_input_defaulted prompt aspectRatio n options)
      as (-> & -> & ->).
    rewrite Hc, Ht, Hf. repeat split.
  - destruct (ultra_input_defaulted StringToNumber a) as (-> & -> & ->).
    rewrite Hc', Ht', Hf'. repeat split.
Qed.

Lemma unset_options_defaulted_witness :
  no_options ≫= Options.enable_safety_checker = None
  /\ no_options ≫= Options.safety_tolerance = None
  /\ no_options ≫= Options.output_format = None
  /\ FluxProUltraInput.enable_safety_checker (ultra_call None None None None) = None
  /\ FluxProUltraInput.safety_tolerance (ultra_call None None None None) = None
  /\ FluxProUltraInput.output_format (ultra_call None None None None) = None
  /\ (generateImage_input "a lighthouse" ratio_1_1 (int 1) no_options
        !! "enable_safety_checker" = Some (VBoolean false)
      /\ generateImage_input "a lighthouse" ratio_1_1 (int 1) no_options
           !! "safety_tolerance" = Some (VString "6")
      /\ generateImage_input "a lighthouse" ratio_1_1 (int 1) no_options
           !! "output_format" = Some (VString "jpeg"))
  /\ (generateFluxProUltraImage_input Number_of_digits
        (ultra_call None None None None) !! "enable_safety_checker"
      = Some (VBoolean false)
      /\ generateFluxProUltraImage_input Number_of_digits
           (ultra_call None None None None) !! "safety_tolerance"
         = Some (VString "6")
      /\ generateFluxProUltraImage_input Number_of_digits
           (ultra_call None None None None) !! "output_format"
         = Some (VString "jpeg")).
Proof.
  repeat (split; [reflexivity|]).
  apply (unset_options_defaulted Number_of_digits "a lighthouse" ratio_1_1
           (int 1) no_options (ultra_call None None None None));
    reflexivity.
Defined.

(** ** Witnesses of the error and first-image statements *)

(** A rejection of the provider with status 403. *)
Lemma generateImage_failure_message_witness :
  generateImage
    (provider (Throw (ThrownError {| message := "Forbidden";
                                     error_status := Some 403%Z |})))
    "key" "a lighthouse" ratio_1_1 flux_dev None no_options
  = Throw (ThrownError (Error "Failed to generate image: Forbidden (Status: 403)"))
  /\ exists underlying : Thrown,
       generateImage_try
         (provider (Throw (ThrownError {| message := "Forbidden";
                                          error_status := Some 403%Z |})))
         "a lighthouse" ratio_1_1 flux_dev (None ?? int 1) no_options
       = Throw underlying
       /\ ThrownError (Error "Failed to generate image: Forbidden (Status: 403)")
          = ThrownError (Error (
              "Failed to generate image: " +:+
              match underlying with
              | ThrownError e =>
                  match error_status e with
                  | Some code =>
                      if (code =? 0)%Z then message e
                      else message e +:+ " (Status: " +:+ String_of_Z code +:+ ")"
                  | None => message e
                  end
              | ThrownValue _ => "Unknown error"
              end)).
Proof.
  split; [reflexivity|].
  apply (generateImage_failure_message
           (provider (Throw (ThrownError {| message := "Forbidden";
                                            error_status := Some 403%Z |})))
           "key" "a lighthouse" ratio_1_1 flux_dev None no_options).
  reflexivity.
Defined.

(** A response whose first image has no url and whose second has one. *)
Lemma generateFluxProUltraImage_first_image_only_witness :
  let imgs := [ {| url := None; width := None; height := None |};
                image "b" 2000 1000 ] in
  let a := ultra_call (Some "2") None None None in
  provider (Return (response imgs)) "fal-ai/flux-pro/v1.1-ultra"
    (generateFluxProUltraImage_request Number_of_digits a)
  = Return (response imgs)
  /\ optional_images (response imgs)
     = Some ({| url := None; width := None; height := None |}
             :: [image "b" 2000 1000])
  /\ generateFluxProUltraImage (provider (Return (response imgs)))
       Number_of_digits a
     = Throw (ThrownError
                (Error "Failed to generate image: No image URL in response")).
Proof.
  intros imgs a. split; [reflexivity|]. split; [reflexivity|].
  apply (generateFluxProUltraImage_first_image_only
           (provider (Return (response imgs))) Number_of_digits a
           (response imgs)
           {| url := None; width := None; height := None |}
           [image "b" 2000 1000]);
    reflexivity.
Defined.

(** ** Zero dimensions *)

Lemma or_number_omit_zero (d : option number) (v : number) :
  or_number (omit_zero d) v = or_number d v.
Proof. destruct d as [[| | |]|]; reflexivity. Qed.

(** The cost of a 2048 x 2048 image is never zero. *)
Lemma cost_2048_truthy (model : ModelAlias) :
  ToBoolean (calculateImageCost (int 2048) (int 2048) model) = true
  /\ (int 0 + calculateImageCost (int 2048) (int 2048) model)%js
     = calculateImageCost (int 2048) (int 2048) model.
Proof. destruct model; split; reflexivity. Qed.

(** The fallback does not look at zero dimensions: an image and the same
    image without them are costed alike. *)
Lemma image_cost_without_zero (model : ModelAlias) (img : Image) :
  image_cost model (without_zero_dimensions img) = image_cost model img.
Proof.
  unfold image_cost, without_zero_dimensions. cbn [width height].
  now rewrite !or_number_omit_zero.
Qed.

(** Claim C10 as stated fails on an image of width 0 and height 1: it has no
    pixels, yet it is costed as a 2048 x 1 image, which rounds to 0, and not
    as a 2048 x 2048 image, which costs 0.105 for this alias. *)
Lemma one_zero_dimension_can_cost_zero :
  width (image "w" 0 1) = Some (S754_zero false)
  /\ generateImage (provider (Return (response [image "w" 0 1])))
                   "key" "a lighthouse" ratio_1_1 flux_dev None no_options
     = Return {| status := "COMPLETED";
                 imageUrls := [Some "w"];
                 cost := S754_zero false |}
  /\ round3 (((int 2048 * int 2048) / int 1000000) * decimal false 25 3)%js
     = decimal false 105 3
  /\ decimal false 105 3 <> S754_zero false.
Proof.
  split; [reflexivity|]. split; [|split].
  - erewrite generateImage_completed by reflexivity. vm_compute. reflexivity.
  - reflexivity.
  - vm_compute. discriminate.
Qed.

(** Claim C10, amended. For every response, [generateImage] costs each
    image from its dimensions with every width or height of 0 replaced by
    2048, exactly as a missing one is: the result is the one the same
    response gives with its zero dimensions left out. Where both the width
    and the height of every image are 0, each image costs the rate times
    2048 * 2048 / 1000000 rounded to three decimals, which is not 0, and that
    is the total for a response of one such image. (With one dimension 0 and
    the other given, the given one is kept, and the cost can round to 0.) *)
Theorem zero_dimension_costed_as_2048
    (fal_subscribe fal_subscribe' :
       string -> SubscribeOptions -> Completion SubscribeResult)
    (apiKey prompt : string) (aspectRatio : AspectRatio) (model : ModelAlias)
    (numImages : option number) (options : option Options.t)
    (first : Image) (rest : list Image) (r : number) :
  COST_PER_MEGAPIXEL model = Some r ->
  fal_subscribe (AVAILABLE_MODELS model)
    (generateImage_request prompt aspectRatio numImages options)
  = Return (response (first :: rest)) ->
  fal_subscribe' (AVAILABLE_MODELS model)
    (generateImage_request prompt aspectRatio numImages options)
  = Return (response (map without_zero_dimensions (first :: rest))) ->
  generateImage fal_subscribe apiKey prompt aspectRatio model numImages options
  = Return {| status := "COMPLETED";
              imageUrls := map url (first :: rest);
              cost :=
                sum_costs
                  (map (fun img =>
                          round3 (((effective_dimension (width img)
                                    * effective_dimension (height img))
                                   / int 1000000) * r)%js)
                       (first :: rest)) |}
  /\ generateImage fal_subscribe' apiKey prompt aspectRatio model numImages options
     = generateImage fal_subscribe apiKey prompt aspectRatio model numImages options
  /\ (Forall zero_pixels (first :: rest) ->
      generateImage fal_subscribe apiKey prompt aspectRatio model numImages options
      = Return {| status := "COMPLETED";
                  imageUrls := map url (first :: rest);
                  cost :=
                    sum_costs
                      (map (fun _ =>
                              round3 (((int 2048 * int 2048) / int 1000000) * r)%js)
                           (first :: rest)) |}
      /\ ToBoolean (round3 (((int 2048 * int 2048) / int 1000000) * r)%js) = true
      /\ sum_costs [round3 (((int 2048 * int 2048) / int 1000000) * r)%js]
         = round3 (((int 2048 * int 2048) / int 1000000) * r)%js).
Proof.
  intros Hr Hcall Hcall'.
  assert (Hcost : forall imgs,
             map (image_cost model) imgs
             = map (fun img =>
                      round3 (((effective_dimension (width img)
                                * effective_dimension (height img))
                               / int 1000000) * r)%js) imgs).
  { intros imgs. apply map_ext. intros img.
    rewrite image_cost_effective. now apply calculateImageCost_formula. }
  assert (Hres :
            generateImage fal_subscribe apiKey prompt aspectRatio model numImages
                          options
            = Return {| status := "COMPLETED";
                        imageUrls := map url (first :: rest);
                        cost := sum_costs (map (image_cost model) (first :: rest)) |})
    by (now apply generateImage_completed with (result := response (first :: rest))).
  split; [|split].
  - rewrite Hres. now rewrite Hcost.
  - rewrite Hres.
    rewrite (generateImage_completed fal_subscribe' apiKey prompt aspectRatio model
               numImages options _ (without_zero_dimensions first)
               (map without_zero_dimensions rest) Hcall' eq_refl).
    change (without_zero_dimensions first :: map without_zero_dimensions rest)
      with (map without_zero_dimensions (first :: rest)).
    rewrite !map_map. do 2 f_equal.
    f_equal. apply map_ext. intros img. apply image_cost_without_zero.
  - intros Hzero. destruct (cost_2048_truthy model) as [Htruthy Hsum].
    rewrite (calculateImageCost_formula _ _ _ _ Hr) in Htruthy, Hsum.
    split; [|split; [exact Htruthy | exact Hsum]].
    rewrite Hres, Hcost.
    assert (Hmap : forall imgs,
              Forall zero_pixels imgs ->
              map (fun img =>
                     round3 (((effective_dimension (width img)
                               * effective_dimension (height img))
                              / int 1000000) * r)%js) imgs
              = map (fun _ =>
                       round3 (((int 2048 * int 2048) / int 1000000) * r)%js)
                    imgs).
    { intros imgs Himgs.
      induction Himgs as [|img imgs [[sw Hw] [sh Hh]] _ IH]; [reflexivity|].
      cbn [map]. rewrite IH, Hw, Hh. reflexivity. }
    now rewrite (Hmap _ Hzero).
Qed.

Lemma zero_dimension_costed_as_2048_witness :
  COST_PER_MEGAPIXEL flux_dev = Some (decimal false 25 3)
  /\ provider (Return (response mixed_images)) (AVAILABLE_MODELS flux_dev)
       (generateImage_request "a lighthouse" ratio_1_1 None no_options)
     = Return (response mixed_images)
  /\ provider (Return (response (map without_zero_dimensions mixed_images)))
       (AVAILABLE_MODELS flux_dev)
       (generateImage_request "a lighthouse" ratio_1_1 None no_options)
     = Return (response (map without_zero_dimensions mixed_images))
  /\ generateImage (provider (Return (response mixed_images))) "key" "a lighthouse"
       ratio_1_1 flux_dev None no_options
     = Return {| status := "COMPLETED";
                 imageUrls := map url mixed_images;
                 cost :=
                   sum_costs
                     (map (fun img =>
                             round3 (((effective_dimension (width img)
                                       * effective_dimension (height img))
                                      / int 1000000) * decimal false 25 3)%js)
                          mixed_images) |}
  /\ generateImage (provider (Return (response (map without_zero_dimensions mixed_images))))
       "key" "a lighthouse" ratio_1_1 flux_dev None no_options
     = generateImage (provider (Return (response mixed_images))) "key" "a lighthouse"
         ratio_1_1 flux_dev None no_options.
Proof.
  split; [reflexivity|]. split; [reflexivity|]. split; [reflexivity|].
  pose proof (zero_dimension_costed_as_2048
                (provider (Return (response mixed_images)))
                (provider (Return (response (map without_zero_dimensions mixed_images))))
                "key" "a lighthouse" ratio_1_1 flux_dev None no_options
                zero_image [image "w" 0 1; image "b" 2000 1000]
                (decimal false 25 3) eq_refl eq_refl eq_refl) as (H1 & H2 & _).
  split; [exact H1 | exact H2].
Defined.

(** * Further properties *)

(** ** The image count of [generateImage] *)

Lemma generateImage_request_num_images (prompt : string) (aspectRatio : AspectRatio)
    (numImages : option number) (options : option Options.t) :
  input (generateImage_request prompt aspectRatio numImages options) !! "num_images"
  = Some (VNumber (clamped (numImages ?? int 1))).
Proof. apply generateImage_input_num_images. Qed.

Lemma SFltb_not_NaN_r (x y : number) : (x < y)%js = true -> is_NaN y = false.
Proof. destruct x, y; simpl; try reflexivity; discriminate. Qed.

Lemma SFltb_not_NaN_l (x y : number) : (x < y)%js = true -> is_NaN x = false.
Proof. destruct x; simpl; try reflexivity; discriminate. Qed.

(** A number above 4 is above 1. *)
Lemma above_4_above_1 (n : number) : (int 4 < n)%js = true -> (int 1 < n)%js = true.
Proof.
  rewrite int_1, int_4. destruct n as [s|[]| |[] p e]; try discriminate;
    try reflexivity.
  unfold SFltb, SFcompare.
  destruct (Z.compare_spec (-50) e) as [<-|Hlt|Hgt]; try discriminate.
  - intros _. reflexivity.
  - intros _. destruct (Z.compare_spec (-52) e); solve [reflexivity | lia].
Qed.

(** Property X1. Whatever count that is a number the caller of
    [generateImage] requests (1 when none is given), the [num_images] of the
    request is a number between 1 and 4, and it is the requested count itself
    when that lies between 1 and 4. *)
Theorem generateImage_count_in_range
    (prompt : string) (aspectRatio : AspectRatio)
    (numImages : option number) (options : option Options.t) :
  (forall n, numImages = Some n -> is_NaN n = false) ->
  exists c,
    input (generateImage_request prompt aspectRatio numImages options) !! "num_images"
    = Some (VNumber c)
    /\ in_1_4 c = true
    /\ (in_1_4 (numImages ?? int 1) = true -> c = numImages ?? int 1).
Proof.
  intros Hnum. exists (clamped (numImages ?? int 1)).
  split; [apply generateImage_request_num_images|]. split.
  - apply clamped_range. destruct numImages as [n|]; [now apply Hnum | reflexivity].
  - apply clamped_id.
Qed.

Lemma generateImage_count_in_range_witness :
  (forall n, Some (decimal false 25 1) = Some n -> is_NaN n = false)
  /\ exists c,
       input (generateImage_request "a lighthouse" ratio_1_1
                (Some (decimal false 25 1)) no_options) !! "num_images"
       = Some (VNumber c)
       /\ in_1_4 c = true
       /\ (in_1_4 (Some (decimal false 25 1) ?? int 1) = true ->
           c = Some (decimal false 25 1) ?? int 1).
Proof.
  split; [intros n [= <-]; reflexivity|].
  apply (generateImage_count_in_range "a lighthouse" ratio_1_1
           (Some (decimal false 25 1)) no_options).
  intros n [= <-]. reflexivity.
Defined.

(** Property X2. A requested count above 4, [+Infinity] included, is sent as
    4, and a count below 1, zero and the negative numbers included, is sent
    as 1: the request is never refused for its count. *)
Theorem generateImage_count_saturates
    (prompt : string) (aspectRatio : AspectRatio)
    (n : number) (options : option Options.t) :
  (int 4 < n)%js = true \/ (n < int 1)%js = true ->
  input (generateImage_request prompt aspectRatio (Some n) options) !! "num_images"
  = Some (VNumber (if (int 4 < n)%js then int 4 else int 1)).
Proof.
  intros Hout. rewrite generateImage_request_num_images. cbn [nullish].
  rewrite clamped_eq. destruct Hout as [H4|H1].
  - now rewrite (SFltb_not_NaN_r _ _ H4), (above_4_above_1 _ H4), H4.
  - rewrite (SFltb_not_NaN_l _ _ H1).
    rewrite (SFleb_SFltb_false _ _ (SFltb_SFleb _ _ H1)).
    destruct (int 4 < n)%js eqn:H4; [|reflexivity].
    apply above_4_above_1 in H4.
    now rewrite (SFleb_SFltb_false _ _ (SFltb_SFleb _ _ H1)) in H4.
Qed.

Lemma generateImage_count_saturates_witness :
  ((int 4 < S754_infinity false)%js = true
   \/ (S754_infinity false < int 1)%js = true)
  /\ input (generateImage_request "a lighthouse" ratio_1_1
              (Some (S754_infinity false)) no_options) !! "num_images"
     = Some (VNumber (int 4)).
Proof.
  split; [left; reflexivity|].
  apply (generateImage_count_saturates "a lighthouse" ratio_1_1
           (S754_infinity false) no_options).
  left. reflexivity.
Defined.

(** Property X3. The count [generateImage] sends is [NaN] exactly when the
    requested count is [NaN]: that is the one count that passes the clamp
    unchanged and leaves 1..4; a call without a count sends 1. *)
Theorem generateImage_count_NaN_only
    (prompt : string) (aspectRatio : AspectRatio)
    (numImages : option number) (options : option Options.t) :
  exists c,
    input (generateImage_request prompt aspectRatio numImages options) !! "num_images"
    = Some (VNumber c)
    /\ is_NaN c = is_NaN (numImages ?? int 1)
    /\ in_1_4 c = negb (is_NaN (numImages ?? int 1))
    /\ match numImages with None => c = int 1 | Some _ => True end.
Proof.
  exists (clamped (numImages ?? int 1)).
  split; [apply generateImage_request_num_images|].
  destruct (is_NaN (numImages ?? int 1)) eqn:Hn.
  - destruct numImages as [[]|]; try discriminate. repeat split.
  - split; [|split].
    + pose proof (clamped_range _ Hn) as Hr. unfold in_1_4 in Hr.
      apply andb_true_iff in Hr as [Hr _]. now apply SFleb_not_NaN_r in Hr.
    + now apply clamped_range.
    + destruct numImages; [exact I | reflexivity].
Qed.

(** ** The result of [generateImage] *)

(** Property X4. [generateImage] is fulfilled exactly when the provider's
    call is fulfilled with a response that holds at least one image; the
    result then has the status "COMPLETED", one url per image of the
    response, in the order of the response, and the summed cost. A rejection
    of the provider, a missing or an empty image list never give a result. *)
Theorem generateImage_fulfilled_iff
    (fal_subscribe : string -> SubscribeOptions -> Completion SubscribeResult)
    (apiKey prompt : string) (aspectRatio : AspectRatio) (model : ModelAlias)
    (numImages : option number) (options : option Options.t)
    (r : GenerationResult) :
  generateImage fal_subscribe apiKey prompt aspectRatio model numImages options
  = Return r
  <-> exists result first rest,
        fal_subscribe (AVAILABLE_MODELS model)
          (generateImage_request prompt aspectRatio numImages options)
        = Return result
        /\ optional_images result = Some (first :: rest)
        /\ status r = "COMPLETED"
        /\ imageUrls r = map url (first :: rest)
        /\ length (imageUrls r) = length (first :: rest)
        /\ cost r = sum_costs (map (image_cost model) (first :: rest)).
Proof.
  split.
  - intros (result & first & rest & Hcall & Himgs & ->)%generateImage_Return_inv.
    exists result, first, rest. cbn [status imageUrls cost].
    repeat split; try assumption. now rewrite length_map.
  - intros (result & first & rest & Hcall & Himgs & Hs & Hu & _ & Hc).
    rewrite (generateImage_completed _ apiKey _ _ _ _ _ _ _ _ Hcall Himgs).
    destruct r as [s u c]. cbn in Hs, Hu, Hc. now subst.
Qed.

(** Property X5. When the provider answers with an empty image list,
    [generateImage] rejects with the message
    "Failed to generate image: No images in response", whatever the model,
    the count and the options. *)
Theorem generateImage_empty_list_message
    (fal_subscribe : string -> SubscribeOptions -> Completion SubscribeResult)
    (apiKey prompt : string) (aspectRatio : AspectRatio) (model : ModelAlias)
    (numImages : option number) (options : option Options.t)
    (result : SubscribeResult) :
  fal_subscribe (AVAILABLE_MODELS model)
    (generateImage_request prompt aspectRatio numImages options) = Return result ->
  optional_images result = Some [] ->
  generateImage fal_subscribe apiKey prompt aspectRatio model numImages options
  = Throw (ThrownError (Error "Failed to generate image: No images in response"))
  /\ contains "No images in response"
       "Failed to generate image: No images in response" = true.
Proof.
  intros Hcall Himgs. split; [|reflexivity].
  now apply generateImage_empty with (result := result).
Qed.

Lemma generateImage_empty_list_message_witness :
  provider (Return (response [])) (AVAILABLE_MODELS flux_schnell)
    (generateImage_request "a lighthouse" ratio_4_3 (Some (int 2)) no_options)
  = Return (response [])
  /\ optional_images (response []) = Some []
  /\ generateImage (provider (Return (response []))) "key" "a lighthouse"
       ratio_4_3 flux_schnell (Some (int 2)) no_options
     = Throw (ThrownError (Error "Failed to generate image: No images in response"))
  /\ contains "No images in response"
       "Failed to generate image: No images in response" = true.
Proof.
  split; [reflexivity|]. split; [reflexivity|].
  apply (generateImage_empty_list_message (provider (Return (response [])))
           "key" "a lighthouse" ratio_4_3 flux_schnell (Some (int 2)) no_options
           (response []));
    reflexivity.
Defined.

(** Property X6. When no image of the response has a negative width or
    height, the total cost [generateImage] returns is a number that is not
    below zero: it is never negative and never [NaN], also when dimensions
    are missing, zero, [NaN] or infinite, and whatever rounding the binary64
    operations perform on the way. *)
Theorem generateImage_cost_never_negative
    (fal_subscribe : string -> SubscribeOptions -> Completion SubscribeResult)
    (apiKey prompt : string) (aspectRatio : AspectRatio) (model : ModelAlias)
    (numImages : option number) (options : option Options.t)
    (result : SubscribeResult) (imgs : list Image) (r : GenerationResult) :
  fal_subscribe (AVAILABLE_MODELS model)
    (generateImage_request prompt aspectRatio numImages options) = Return result ->
  optional_images result = Some imgs ->
  Forall (fun i => not_negative (width i) = true
                   /\ not_negative (height i) = true) imgs ->
  generateImage fal_subscribe apiKey prompt aspectRatio model numImages options
  = Return r ->
  (int 0 <= cost r)%js = true
  /\ is_NaN (cost r) = false
  /\ Forall (fun i => (int 0 <= image_cost model i)%js = true) imgs.
Proof.
  intros Hcall Himgs Hdims Hres.
  pose proof (generateImage_cost_nonneg _ _ _ _ _ _ _ _ _ _
                Hcall Himgs Hdims Hres) as Hcost.
  split; [exact Hcost|]. split; [now apply SFleb_not_NaN_r in Hcost|].
  eapply Forall_impl; [exact Hdims|].
  intros i [Hw Hh]. rewrite <- nonnegative_SFleb. now apply image_cost_nonneg.
Qed.

Lemma generateImage_cost_never_negative_witness :
  let imgs := [ image "a" 1000 1000;
                {| url := Some "b"; width := None; height := Some NaN |};
                {| url := Some "c"; width := Some (S754_infinity false);
                   height := Some (int 0) |} ] in
  let r := {| status := "COMPLETED";
              imageUrls := [Some "a"; Some "b"; Some "c"];
              cost := S754_infinity false |} in
  provider (Return (response imgs)) (AVAILABLE_MODELS flux_pro)
    (generateImage_request "a lighthouse" ratio_1_1 None no_options)
  = Return (response imgs)
  /\ optional_images (response imgs) = Some imgs
  /\ Forall (fun i => not_negative (width i) = true
                      /\ not_negative (height i) = true) imgs
  /\ generateImage (provider (Return (response imgs))) "key" "a lighthouse"
       ratio_1_1 flux_pro None no_options = Return r
  /\ (int 0 <= cost r)%js = true
  /\ is_NaN (cost r) = false
  /\ Forall (fun i => (int 0 <= image_cost flux_pro i)%js = true) imgs.
Proof.
  intros imgs r.
  assert (Hdims : Forall (fun i => not_negative (width i) = true
                                   /\ not_negative (height i) = true) imgs)
    by (repeat constructor).
  assert (Hres : generateImage (provider (Return (response imgs))) "key"
                   "a lighthouse" ratio_1_1 flux_pro None no_options = Return r)
    by (vm_compute; reflexivity).
  split; [reflexivity|]. split; [reflexivity|]. split; [exact Hdims|].
  split; [exact Hres|].
  exact (generateImage_cost_never_negative
           (provider (Return (response imgs))) "key" "a lighthouse" ratio_1_1
           flux_pro None no_options (response imgs) imgs r
           eq_refl eq_refl Hdims Hres).
Defined.

(** ** The cost helper on its own *)

(** Property X7. [calculateImageCost] never fails on a degenerate
    dimension. A zero width or height with a finite other dimension costs
    exactly [+0], whatever the signs; a [NaN] dimension, and zero times
    infinity, give a [NaN] cost. *)
Theorem calculateImageCost_degenerate
    (model : ModelAlias) (s t : bool) (p : positive) (e : Z) (w h : number) :
  calculateImageCost (S754_zero s) (S754_finite t p e) model = S754_zero false
  /\ calculateImageCost (S754_finite t p e) (S754_zero s) model = S754_zero false
  /\ calculateImageCost (S754_zero s) (S754_zero t) model = S754_zero false
  /\ calculateImageCost NaN h model = NaN
  /\ calculateImageCost w NaN model = NaN
  /\ calculateImageCost (S754_zero s) (S754_infinity t) model = NaN.
Proof.
  split; [|split; [|split; [|split; [|split]]]].
  - destruct model, s, t; reflexivity.
  - destruct model, s, t; reflexivity.
  - destruct model, s, t; reflexivity.
  - reflexivity.
  - destruct w as [[]|[]| |[] q f]; reflexivity.
  - destruct model, s, t; reflexivity.
Qed.

(** ** What a caller sees of a failure *)

Lemma prefix_append (p s : string) : String.prefix p (p +:+ s) = true.
Proof.
  induction p as [|c p IH]; [now destruct s|].
  change (String c p +:+ s) with (String c (p +:+ s)). cbn [String.prefix].
  destruct (ascii_dec c c) as [_|Hne]; [exact IH | now destruct Hne].
Qed.

Lemma contains_prefix (needle rest : string) :
  contains needle (needle +:+ rest) = true.
Proof.
  destruct (needle +:+ rest) eqn:E; cbn [contains];
    rewrite <- E, prefix_append; reflexivity.
Qed.

Lemma contains_append_r (needle before hay : string) :
  contains needle hay = true -> contains needle (before +:+ hay) = true.
Proof.
  intros H. induction before as [|c before IH]; [exact H|].
  change (String c before +:+ hay) with (String c (before +:+ hay)).
  cbn [contains]. rewrite IH. apply orb_true_r.
Qed.

(** Property X8. Every rejection of [generateImage] and of
    [generateFluxProUltraImage] is an [Error] whose message starts with
    "Failed to generate image: " and which has no [status] of its own: the
    status of the underlying error survives only as text in the message. *)
Theorem surfaced_error_shape
    (fal_subscribe : string -> SubscribeOptions -> Completion SubscribeResult)
    (StringToNumber : string -> number)
    (apiKey prompt : string) (aspectRatio : AspectRatio) (model : ModelAlias)
    (numImages : option number) (options : option Options.t)
    (a : FluxProUltraInput.t) (t : Thrown) :
  generateImage fal_subscribe apiKey prompt aspectRatio model numImages options
  = Throw t
  \/ generateFluxProUltraImage fal_subscribe StringToNumber a = Throw t ->
  exists e : ErrorObject,
    t = ThrownError e
    /\ error_status e = None
    /\ String.prefix "Failed to generate image: " (message e) = true.
Proof.
  intros [(u & _ & ->)%generateImage_Throw_inv
         |(u & _ & ->)%generateFluxProUltraImage_Throw_inv];
    eexists; (split; [reflexivity|]); (split; [reflexivity|]);
    apply prefix_append.
Qed.

Lemma surfaced_error_shape_witness :
  (generateImage (provider (Throw forbidden)) "key" "a lighthouse" ratio_1_1
     flux_dev None no_options
   = Throw (ThrownError
              (Error "Failed to generate image: Forbidden (Status: 403)"))
   \/ generateFluxProUltraImage (provider (Throw forbidden)) Number_of_digits
        (ultra_call None None None None)
      = Throw (ThrownError
                 (Error "Failed to generate image: Forbidden (Status: 403)")))
  /\ exists e : ErrorObject,
       ThrownError (Error "Failed to generate image: Forbidden (Status: 403)")
       = ThrownError e
       /\ error_status e = None
       /\ String.prefix "Failed to generate image: " (message e) = true.
Proof.
  split; [left; reflexivity|].
  apply (surfaced_error_shape (provider (Throw forbidden)) Number_of_digits
           "key" "a lighthouse" ratio_1_1 flux_dev None no_options
           (ultra_call None None None None)).
  left. reflexivity.
Defined.

(** Property X9. When the provider's client rejects with an [Error], both
    actions reject, and the message they surface holds the message of that
    error unchanged and, when the error has a status other than 0, the
    status in decimal. *)
Theorem provider_error_preserved
    (fal_subscribe : string -> SubscribeOptions -> Completion SubscribeResult)
    (StringToNumber : string -> number)
    (apiKey prompt : string) (aspectRatio : AspectRatio) (model : ModelAlias)
    (numImages : option number) (options : option Options.t)
    (a : FluxProUltraInput.t) (e : ErrorObject) :
  fal_subscribe (AVAILABLE_MODELS model)
    (generateImage_request prompt aspectRatio numImages options)
  = Throw (ThrownError e) ->
  fal_subscribe "fal-ai/flux-pro/v1.1-ultra"
    (generateFluxProUltraImage_request StringToNumber a)
  = Throw (ThrownError e) ->
  exists msg : string,
    generateImage fal_subscribe apiKey prompt aspectRatio model numImages options
    = Throw (ThrownError (Error msg))
    /\ generateFluxProUltraImage fal_subscribe StringToNumber a
       = Throw (ThrownError (Error msg))
    /\ contains (message e) msg = true
    /\ (forall code, error_status e = Some code -> code <> 0%Z ->
                     contains (String_of_Z code) msg = true).
Proof.
  intros Hcall Hultra.
  exists ("Failed to generate image: " +:+ errorMessage (ThrownError e)).
  split; [|split; [|split]].
  - unfold generateImage. rewrite generateImage_try_cases, Hcall. reflexivity.
  - unfold generateFluxProUltraImage.
    rewrite generateFluxProUltraImage_try_cases, Hultra. reflexivity.
  - apply contains_append_r. cbn [errorMessage]. apply contains_prefix.
  - intros code Hcode Hne. apply contains_append_r. cbn [errorMessage].
    rewrite Hcode. destruct (Z.eqb_spec code 0) as [->|_]; [now destruct Hne|].
    do 2 apply contains_append_r. apply contains_prefix.
Qed.

Lemma provider_error_preserved_witness :
  provider (Throw forbidden) (AVAILABLE_MODELS flux_dev)
    (generateImage_request "a lighthouse" ratio_1_1 None no_options)
  = Throw forbidden
  /\ provider (Throw forbidden) "fal-ai/flux-pro/v1.1-ultra"
       (generateFluxProUltraImage_request Number_of_digits
          (ultra_call None None None None))
     = Throw forbidden
  /\ exists msg : string,
       generateImage (provider (Throw forbidden)) "key" "a lighthouse" ratio_1_1
         flux_dev None no_options
       = Throw (ThrownError (Error msg))
       /\ generateFluxProUltraImage (provider (Throw forbidden)) Number_of_digits
            (ultra_call None None None None)
          = Throw (ThrownError (Error msg))
       /\ contains "Forbidden" msg = true
       /\ (forall code, Some 403%Z = Some code -> code <> 0%Z ->
                        contains (String_of_Z code) msg = true).
Proof.
  split; [reflexivity|]. split; [reflexivity|].
  apply (provider_error_preserved (provider (Throw forbidden)) Number_of_digits
           "key" "a lighthouse" ratio_1_1 flux_dev None no_options
           (ultra_call None None None None)
           {| message := "Forbidden"; error_status := Some 403%Z |});
    reflexivity.
Defined.

(** ** The result of [generateFluxProUltraImage] and its display *)

(** Property X10. Whenever the response has a [data] object but no usable
    first url (the image list is missing or empty, or its first image has no
    url or an empty one), [generateFluxProUltraImage] rejects with
    "Failed to generate image: No image URL in response"; unlike
    [generateImage], a missing image list does not end in a type error. *)
Theorem generateFluxProUltraImage_no_url_message
    (fal_subscribe : string -> SubscribeOptions -> Completion SubscribeResult)
    (StringToNumber : string -> number) (a : FluxProUltraInput.t)
    (result : SubscribeResult) (d : Data) :
  fal_subscribe "fal-ai/flux-pro/v1.1-ultra"
    (generateFluxProUltraImage_request StringToNumber a) = Return result ->
  data result = Some d ->
  optional_first_url result = None \/ optional_first_url result = Some "" ->
  generateFluxProUltraImage fal_subscribe StringToNumber a
  = Throw (ThrownError (Error "Failed to generate image: No image URL in response")).
Proof.
  intros Hcall Hd Hurl. unfold generateFluxProUltraImage.
  rewrite generateFluxProUltraImage_try_cases, Hcall, Hd.
  destruct result as [od]. cbn in Hd. subst od.
  destruct d as [[[|first rest]|]]; try reflexivity.
  cbn in Hurl. cbn [images]. destruct (url first) as [u|]; [|reflexivity].
  destruct Hurl as [Hu|Hu]; [discriminate|]. injection Hu as ->. reflexivity.
Qed.

Lemma generateFluxProUltraImage_no_url_message_witness :
  let result := {| data := Some {| images := None |} |} in
  provider (Return result) "fal-ai/flux-pro/v1.1-ultra"
    (generateFluxProUltraImage_request Number_of_digits
       (ultra_call None None None None))
  = Return result
  /\ data result = Some {| images := None |}
  /\ (optional_first_url result = None \/ optional_first_url result = Some "")
  /\ generateFluxProUltraImage (provider (Return result)) Number_of_digits
       (ultra_call None None None None)
     = Throw (ThrownError
                (Error "Failed to generate image: No image URL in response")).
Proof.
  intros result. split; [reflexivity|]. split; [reflexivity|].
  split; [left; reflexivity|].
  apply (generateFluxProUltraImage_no_url_message (provider (Return result))
           Number_of_digits (ultra_call None None None None) result
           {| images := None |}).
  - reflexivity.
  - reflexivity.
  - left. reflexivity.
Defined.

(** Property X11. [ImageDisplay] renders the image element exactly for a
    result that is a non-empty string, with that string as its source, and
    the placeholder "No image generated yet" for [null] and for the empty
    string: it never renders an image without a source. *)
Theorem ImageDisplay_cases (result : option string) :
  (CardContent (ImageDisplay result) = Placeholder "No image generated yet"
   <-> result = None \/ result = Some "")
  /\ (forall src alt,
        CardContent (ImageDisplay result) = Img src alt <->
        result = Some src /\ src <> "" /\ alt = "Generated image")
  /\ CardTitle (ImageDisplay result) = "Generated Image".
Proof.
  split; [|split; [|reflexivity]].
  - destruct result as [u|]; cbn.
    + destruct (String.eqb_spec u "") as [->|Hne].
      * split; [now right | reflexivity].
      * split; [discriminate|]. intros [H|[= H]]; [discriminate | now destruct Hne].
    + split; [now left | reflexivity].
  - intros src alt. destruct result as [u|]; cbn.
    + destruct (String.eqb_spec u "") as [->|Hne].
      * split; [discriminate|]. intros ([= <-] & Hsrc & _). now destruct Hsrc.
      * split.
        -- intros [= <- <-]. now repeat split.
        -- intros ([= <-] & _ & ->). reflexivity.
    + split; [discriminate|]. intros (H & _). discriminate.
Qed.

(** Property X12. What [generateFluxProUltraImage] resolves to is never the
    empty string: it is the url of the first image of the response, and
    [ImageDisplay] renders it as an image with that source, never as the
    placeholder. *)
Theorem generateFluxProUltraImage_result_displayed
    (fal_subscribe : string -> SubscribeOptions -> Completion SubscribeResult)
    (StringToNumber : string -> number) (a : FluxProUltraInput.t) (u : string) :
  generateFluxProUltraImage fal_subscribe StringToNumber a = Return u ->
  u <> ""
  /\ (exists result first rest,
        fal_subscribe "fal-ai/flux-pro/v1.1-ultra"
          (generateFluxProUltraImage_request StringToNumber a) = Return result
        /\ optional_images result = Some (first :: rest)
        /\ url first = Some u)
  /\ CardContent (ImageDisplay (Some u)) = Img u "Generated image".
Proof.
  intros Hres.
  assert (Hu : u <> "").
  { revert Hres. unfold generateFluxProUltraImage.
    rewrite generateFluxProUltraImage_try_cases.
    destruct (fal_subscribe _ _) as [result|t]; [|discriminate].
    destruct result as [[[[[|first rest]|]]|]]; try discriminate.
    cbn. destruct (url first) as [v|]; [|discriminate].
    destruct (String.eqb_spec v "") as [->|Hne]; [discriminate|].
    now intros [= <-]. }
  split; [exact Hu|]. split.
  - now apply generateFluxProUltraImage_Return_inv.
  - cbn. destruct (String.eqb_spec u ""); [contradiction | reflexivity].
Qed.

Lemma generateFluxProUltraImage_result_displayed_witness :
  generateFluxProUltraImage (provider (Return (response example_images)))
    Number_of_digits (ultra_call (Some "2") None None None)
  = Return "a"
  /\ "a" <> ""
  /\ (exists result first rest,
        provider (Return (response example_images)) "fal-ai/flux-pro/v1.1-ultra"
          (generateFluxProUltraImage_request Number_of_digits
             (ultra_call (Some "2") None None None)) = Return result
        /\ optional_images result = Some (first :: rest)
        /\ url first = Some "a")
  /\ CardContent (ImageDisplay (Some "a")) = Img "a" "Generated image".
Proof.
  split; [reflexivity|].
  apply (generateFluxProUltraImage_result_displayed
           (provider (Return (response example_images))) Number_of_digits
           (ultra_call (Some "2") None None None) "a").
  reflexivity.
Defined.

(** ** The shape of the payloads *)

(** Property X13. The payload of [generateImage] holds the six properties
    [prompt], [aspect_ratio], [num_images], [enable_safety_checker],
    [safety_tolerance], [output_format], then [seed] and [raw] when the
    caller supplied them, and nothing else; the prompt and the aspect ratio
    are those of the call. *)
Theorem generateImage_payload_shape
    (prompt : string) (aspectRatio : AspectRatio) (n : number)
    (options : option Options.t) :
  dom (generateImage_input prompt aspectRatio n options)
  = generateImage_keys
    ∪ key_when (supplied (options ≫= Options.seed)) "seed"
    ∪ key_when (supplied (options ≫= Options.raw)) "raw"
  /\ generateImage_input prompt aspectRatio n options !! "prompt"
     = Some (VString prompt)
  /\ generateImage_input prompt aspectRatio n options !! "aspect_ratio"
     = Some (VString (AspectRatio_string aspectRatio)).
Proof.
  unfold generateImage_input, object_literal, generateImage_keys.
  destruct (options ≫= Options.seed), (options ≫= Options.raw);
    (split; [|split; reflexivity]);
    cbn [fold_left app supplied key_when fst snd];
    rewrite ?dom_insert_L, ?dom_empty_L; set_solver.
Qed.

(** Property X14. The payload of [generateFluxProUltraImage] always holds
    the nine properties [prompt], [seed], [sync_mode], [num_images],
    [enable_safety_checker], [safety_tolerance], [output_format],
    [aspect_ratio] and [raw], with [image_url] and [image_prompt_strength]
    when the caller's value is truthy, and nothing else; an unset aspect ratio
    is sent as "16:9", an unset [sync_mode] as [false], and an unset
    [num_images] as the number read from "1". *)
Theorem generateFluxProUltraImage_payload_shape
    (StringToNumber : string -> number) (a : FluxProUltraInput.t) :
  dom (generateFluxProUltraImage_input StringToNumber a)
  = generateFluxProUltraImage_keys
    ∪ key_when (match FluxProUltraInput.image_url a with
                | Some u => negb (String.eqb u "")
                | None => false
                end) "image_url"
    ∪ key_when (match FluxProUltraInput.image_prompt_strength a with
                | Some x => ToBoolean x
                | None => false
                end) "image_prompt_strength"
  /\ generateFluxProUltraImage_input StringToNumber a !! "aspect_ratio"
     = Some (VString (AspectRatio_string
                        (FluxProUltraInput.aspect_ratio a ?? ratio_16_9)))
  /\ generateFluxProUltraImage_input StringToNumber a !! "sync_mode"
     = Some (VBoolean (FluxProUltraInput.sync_mode a ?? false))
  /\ generateFluxProUltraImage_input StringToNumber a !! "num_images"
     = Some (VNumber (StringToNumber (FluxProUltraInput.num_images a ?? "1"))).
Proof.
  split; [|repeat split; payload_lookup a].
  unfold generateFluxProUltraImage_input, object_literal,
    generateFluxProUltraImage_keys.
  destruct (FluxProUltraInput.image_url a) as [u|];
    [destruct (negb (String.eqb u ""))|];
    (destruct (FluxProUltraInput.image_prompt_strength a) as [x|];
     [destruct (ToBoolean x)|]);
    cbn [fold_left app spread_when key_when fst snd];
    rewrite ?dom_insert_L, ?dom_empty_L; set_solver.
Qed.

(** ** The realtime action *)

(** Property X15. The message [generateImageRealtime] sends holds exactly
    [prompt], [aspect_ratio], [output_format] and [enable_safety_checker]:
    the format is always "jpeg" and the safety checker always off, and no
    image count, safety tolerance, seed or raw flag is ever sent. *)
Theorem generateImageRealtime_message_shape
    (prompt : string) (aspectRatio : AspectRatio) :
  dom (generateImageRealtime_message prompt aspectRatio)
  = ({[ "prompt"; "aspect_ratio"; "output_format"; "enable_safety_checker" ]}
     : gset string)
  /\ generateImageRealtime_message prompt aspectRatio !! "prompt"
     = Some (VString prompt)
  /\ generateImageRealtime_message prompt aspectRatio !! "aspect_ratio"
     = Some (VString (AspectRatio_string aspectRatio))
  /\ generateImageRealtime_message prompt aspectRatio !! "output_format"
     = Some (VString "jpeg")
  /\ generateImageRealtime_message prompt aspectRatio !! "enable_safety_checker"
     = Some (VBoolean false)
  /\ generateImageRealtime_message prompt aspectRatio !! "num_images" = None
  /\ generateImageRealtime_message prompt aspectRatio !! "safety_tolerance" = None.
Proof.
  split; [|repeat split].
  unfold generateImageRealtime_message, object_literal.
  cbn [fold_left fst snd]. rewrite !dom_insert_L, dom_empty_L. set_solver.
Qed.

(** Property X16. For a result with at least one image the [onResult]
    callback returns the status "COMPLETED" with the url of the first image
    as it is, a missing one included: unlike [generateFluxProUltraImage] it
    does not check that there is a url. *)
Theorem generateImageRealtime_onResult_first
    (result : SubscribeResult) (first : Image) (rest : list Image) :
  optional_images result = Some (first :: rest) ->
  generateImageRealtime_onResult result
  = Return {| RealtimeResult.status := "COMPLETED";
              RealtimeResult.imageUrl := url first |}.
Proof.
  destruct result as [[[[l|]]|]]; try discriminate.
  cbn. intros [= ->]. reflexivity.
Qed.

Lemma generateImageRealtime_onResult_first_witness :
  let first := {| url := None; width := Some (int 512); height := Some (int 512) |} in
  optional_images (response [first; image "b" 2000 1000])
  = Some (first :: [image "b" 2000 1000])
  /\ generateImageRealtime_onResult (response [first; image "b" 2000 1000])
     = Return {| RealtimeResult.status := "COMPLETED";
                 RealtimeResult.imageUrl := None |}.
Proof.
  intros first. split; [reflexivity|].
  apply (generateImageRealtime_onResult_first
           (response [first; image "b" 2000 1000]) first [image "b" 2000 1000]).
  reflexivity.
Defined.

(** Property X17. For a result without images (no [data], no image list, or
    an empty one) the [onResult] callback throws the engine's [TypeError] for
    the failed read, and returns no status; there is no guard and no
    message of its own. *)
Theorem generateImageRealtime_onResult_no_images (result : SubscribeResult) :
  optional_images result = None \/ optional_images result = Some [] ->
  exists prop : string,
    generateImageRealtime_onResult result
    = Throw (ThrownError (TypeError_read prop))
    /\ (prop = "images" \/ prop = "0" \/ prop = "url")
    /\ contains "Failed to generate image" (message (TypeError_read prop)) = false.
Proof.
  intros Himgs. destruct result as [[[[[|first rest]|]]|]].
  - exists "url". repeat split; auto.
  - destruct Himgs; discriminate.
  - exists "0". repeat split; auto.
  - exists "images". repeat split; auto.
Qed.

Lemma generateImageRealtime_onResult_no_images_witness :
  (optional_images (response []) = None \/ optional_images (response []) = Some [])
  /\ exists prop : string,
       generateImageRealtime_onResult (response [])
       = Throw (ThrownError (TypeError_read prop))
       /\ (prop = "images" \/ prop = "0" \/ prop = "url")
       /\ contains "Failed to generate image" (message (TypeError_read prop))
          = false.
Proof.
  split; [right; reflexivity|].
  apply (generateImageRealtime_onResult_no_images (response [])).
  right. reflexivity.
Defined.

(** Property X18. [generateImageRealtime] has no [catch]: it rejects exactly
    when opening the connection or sending the message throws, and then with
    the thrown value itself, its status included, without the
    "Failed to generate image: " wrapping of the other two actions; when
    neither throws it resolves to [undefined], whatever the channel delivers
    later. *)
Theorem generateImageRealtime_outcome
    (fal_realtime_connect : string -> RealtimeOptions -> Completion Connection)
    (apiKey prompt : string) (aspectRatio : AspectRatio) (model : ModelAlias)
    (t : Thrown) :
  let opened :=
    fal_realtime_connect (AVAILABLE_MODELS model)
      {| connectionKey := "image-generation";
         onResult := generateImageRealtime_onResult |} in
  (generateImageRealtime fal_realtime_connect apiKey prompt aspectRatio model
   = Throw t
   <-> opened = Throw t
       \/ exists connection,
            opened = Return connection
            /\ send connection (generateImageRealtime_message prompt aspectRatio)
               = Throw t)
  /\ (generateImageRealtime fal_realtime_connect apiKey prompt aspectRatio model
      = Return tt
      <-> exists connection,
            opened = Return connection
            /\ send connection (generateImageRealtime_message prompt aspectRatio)
               = Return tt).
Proof.
  intros opened. unfold generateImageRealtime. fold opened.
  destruct opened as [connection|u]; cbn.
  - destruct (send connection _) as [[]|v] eqn:Hsend; cbn; split; split.
    + discriminate.
    + intros [H|(c & [= <-] & H)]; [discriminate|]. rewrite Hsend in H.
      discriminate.
    + intros _. exists connection. now split.
    + reflexivity.
    + intros [= <-]. right. exists connection. now split.
    + intros [H|(c & [= <-] & H)]; [discriminate|]. now rewrite Hsend in H.
    + discriminate.
    + intros (c & [= <-] & H). rewrite Hsend in H. discriminate.
  - split; split.
    + intros [= <-]. now left.
    + intros [[= <-]|(c & H & _)]; [reflexivity | discriminate].
    + discriminate.
    + intros (c & H & _). discriminate.
Qed.

(** ** Rounding of the cost *)

(** Property X19. When the product [width * height / 1000000 * rate] is a
    finite number below 10^21 in magnitude, [calculateImageCost] returns the
    binary64 reading of a decimal with three digits after the point, and
    that decimal is the one nearest to the product, the larger one at a tie:
    its digits [n] differ from a thousand times the product's magnitude by at
    most one half. *)
Theorem calculateImageCost_nearest_thousandth
    (w h r : number) (model : ModelAlias) (s : bool) (m : positive) (e : Z) :
  COST_PER_MEGAPIXEL model = Some r ->
  (((w * h) / int 1000000) * r)%js = S754_finite s m e ->
  at_least_1e21 m e = false ->
  exists n : N,
    calculateImageCost w h model = decimal s n 3
    /\ (e < 0 ->
        2 * 2 ^ (- e) * Z.of_N n <= 2 * (Zpos m * 1000) + 2 ^ (- e)
        < 2 * 2 ^ (- e) * Z.of_N n + 2 * 2 ^ (- e))%Z
    /\ (0 <= e -> Z.of_N n = Zpos m * 1000 * 2 ^ e)%Z.
Proof.
  intros Hr Hx Hsmall. exists (nearest_scaled m e 3).
  rewrite (calculateImageCost_formula _ _ _ _ Hr), Hx.
  split; [now apply round3_finite|]. split.
  - intros He. destruct e as [|q|k]; try lia.
    change (- Zneg k)%Z with (Zpos k).
    pose proof (nearest_scaled_neg m k 3) as H.
    change (10 ^ Z.of_nat 3)%Z with 1000%Z in H. cbn zeta in H. exact H.
  - intros He. now rewrite (nearest_scaled_nonneg m e 3).
Qed.

Lemma calculateImageCost_nearest_thousandth_witness :
  COST_PER_MEGAPIXEL flux_dev = Some (decimal false 25 3)
  /\ (((int 2048 * int 2048) / int 1000000) * decimal false 25 3)%js
     = S754_finite false 7555786372591432 (-56)
  /\ at_least_1e21 7555786372591432 (-56) = false
  /\ exists n : N,
       calculateImageCost (int 2048) (int 2048) flux_dev = decimal false n 3
       /\ (-56 < 0 ->
           2 * 2 ^ (- (-56)) * Z.of_N n
           <= 2 * (Zpos 7555786372591432 * 1000) + 2 ^ (- (-56))
           < 2 * 2 ^ (- (-56)) * Z.of_N n + 2 * 2 ^ (- (-56)))%Z
       /\ (0 <= -56 -> Z.of_N n = Zpos 7555786372591432 * 1000 * 2 ^ (-56))%Z.
Proof.
  split; [reflexivity|]. split; [reflexivity|]. split; [reflexivity|].
  apply (calculateImageCost_nearest_thousandth (int 2048) (int 2048)
           (decimal false 25 3) flux_dev false 7555786372591432 (-56));
    reflexivity.
Defined.

(** ** Options the caller supplies *)



(** ** A response without [data] *)

(** Property X21. When the provider's response has no [data] object, both
    actions reject with the engine's type error for the read of [images]
    (their log statements read [result.data.images] unguarded), wrapped as
    "Failed to generate image: ..."; neither reaches its own check for
    missing images. *)
Theorem response_without_data
    (fal_subscribe : string -> SubscribeOptions -> Completion SubscribeResult)
    (StringToNumber : string -> number)
    (apiKey prompt : string) (aspectRatio : AspectRatio) (model : ModelAlias)
    (numImages : option number) (options : option Options.t)
    (a : FluxProUltraInput.t) :
  fal_subscribe (AVAILABLE_MODELS model)
    (generateImage_request prompt aspectRatio numImages options)
  = Return {| data := None |} ->
  fal_subscribe "fal-ai/flux-pro/v1.1-ultra"
    (generateFluxProUltraImage_request StringToNumber a)
  = Return {| data := None |} ->
  generateImage fal_subscribe apiKey prompt aspectRatio model numImages options
  = Throw (ThrownError (Error ("Failed to generate image: "
                               +:+ message (TypeError_read "images"))))
  /\ generateFluxProUltraImage fal_subscribe StringToNumber a
     = Throw (ThrownError (Error ("Failed to generate image: "
                                  +:+ message (TypeError_read "images"))))
  /\ contains "No image" ("Failed to generate image: "
                          +:+ message (TypeError_read "images")) = false.
Proof.
  intros Hcall Hultra. split; [|split; [|reflexivity]].
  - unfold generateImage. rewrite generateImage_try_cases, Hcall. reflexivity.
  - unfold generateFluxProUltraImage.
    rewrite generateFluxProUltraImage_try_cases, Hultra. reflexivity.
Qed.

Lemma response_without_data_witness :
  provider (Return {| data := None |}) (AVAILABLE_MODELS flux_lora)
    (generateImage_request "a lighthouse" ratio_9_16 None no_options)
  = Return {| data := None |}
  /\ provider (Return {| data := None |}) "fal-ai/flux-pro/v1.1-ultra"
       (generateFluxProUltraImage_request Number_of_digits
          (ultra_call None None None None))
     = Return {| data := None |}
  /\ generateImage (provider (Return {| data := None |})) "key" "a lighthouse"
       ratio_9_16 flux_lora None no_options
     = Throw (ThrownError (Error ("Failed to generate image: "
                                  +:+ message (TypeError_read "images"))))
  /\ generateFluxProUltraImage (provider (Return {| data := None |}))
       Number_of_digits (ultra_call None None None None)
     = Throw (ThrownError (Error ("Failed to generate image: "
                                  +:+ message (TypeError_read "images"))))
  /\ contains "No image" ("Failed to generate image: "
                          +:+ message (TypeError_read "images")) = false.
Proof.
  split; [reflexivity|]. split; [reflexivity|].
  apply (response_without_data (provider (Return {| data := None |}))
           Number_of_digits "key" "a lighthouse" ratio_9_16 flux_lora None
           no_options (ultra_call None None None None));
    reflexivity.
Defined.
